(** * National Operations Summary: page visibility, menu reconciliation, deployment

  A shallow embedding of [page_visibility_detector.py], [menu_generator.py]
  and [deploy.py], and the properties of the menu pipeline proved on it.

  Conventions of the embedding.
  - A Python [str] is a [string] whose characters are the code points
    below 256; [lower] and [isspace] follow Python on every one of them.
  - A [dict] read from the content platform ([pages]) or built as a result
    ([visible_pages], [hidden_pages]) is a [gmap]; the set of page ids is a
    [gset].  Iteration order of these dicts only drives the order of printed
    lines, which is not modelled.
  - A JSON object of the menu artifact is a record of its keys, each key
    absent ([None]) or present; subscripting an absent key raises [KeyError].
  - Network, file and process results are read from a world record; an
    exception is the [Raised] outcome, [try]/[except] is [try_except].
  - [print] calls are dropped. *)

From stdpp Require Import gmap strings list fin_maps.
From Stdlib Require Import Ascii ZArith.

Set Warnings "-register-all".

(** ** Python strings *)

Module Py.

(** [c.lower()] on one character: the capital letters, A-Z (65..90) and
    the accented ones (192..222 without the multiplication sign 215), are
    moved by 32. *)
Definition lower_char (c : ascii) : ascii :=
  let n := nat_of_ascii c in
  if ((65 <=? n)%nat && (n <=? 90)%nat)
     || ((192 <=? n)%nat && (n <=? 222)%nat && negb (Nat.eqb n 215))
  then ascii_of_nat (n + 32) else c.

(** [s.lower()] *)
Fixpoint lower (s : string) : string :=
  match s with
  | EmptyString => EmptyString
  | String c s' => String (lower_char c) (lower s')
  end.

(** [s[n:]] *)
Fixpoint drop (n : nat) (s : string) : string :=
  match n, s with
  | O, _ => s
  | S _, EmptyString => EmptyString
  | S n', String _ s' => drop n' s'
  end.

(** [s[:n]] *)
Fixpoint take (n : nat) (s : string) : string :=
  match n, s with
  | O, _ => EmptyString
  | S _, EmptyString => EmptyString
  | S n', String c s' => String c (take n' s')
  end.

(** [s.find(sub)]: index of the leftmost occurrence, [None] for -1. *)
Fixpoint find (sub s : string) : option nat :=
  if String.prefix sub s then Some O
  else match s with
       | EmptyString => None
       | String _ s' => S <$> find sub s'
       end.

(** [sub in s] *)
Definition contains (sub s : string) : bool :=
  match find sub s with Some _ => true | None => false end.

(** [any(keyword in s for keyword in keywords)] *)
Definition any_in (keywords : list string) (s : string) : bool :=
  existsb (fun keyword => contains keyword s) keywords.

(** [s.split(sep)] for a non-empty [sep] (Python raises [ValueError] on
    an empty one; every separator of the program is a non-empty literal):
    cut at the leftmost occurrence, go on behind it.  Each cut consumes at
    least one character, so [String.length s] rounds are enough. *)
Fixpoint split_fuel (fuel : nat) (sep s : string) : list string :=
  match fuel with
  | O => [s]
  | S fuel' =>
      match find sep s with
      | None => [s]
      | Some i => take i s :: split_fuel fuel' sep (drop (i + String.length sep) s)
      end
  end.

Definition split (sep s : string) : list string :=
  split_fuel (String.length s) sep s.

(** [sep.join(pieces)] *)
Fixpoint join (sep : string) (pieces : list string) : string :=
  match pieces with
  | [] => ""
  | [p] => p
  | p :: rest => p +:+ sep +:+ join sep rest
  end.

(** [l[-1]] of a list of strings that is never empty here. *)
Definition last_piece (l : list string) : string := List.last l "".

(** [c.isspace()]: tab to carriage return, the four separators 28..31,
    the space, next line (133) and the no-break space (160). *)
Definition isspace (c : ascii) : bool :=
  let n := nat_of_ascii c in
  ((9 <=? n)%nat && (n <=? 13)%nat) || ((28 <=? n)%nat && (n <=? 32)%nat)
  || Nat.eqb n 133 || Nat.eqb n 160.

Fixpoint lstrip (s : string) : string :=
  match s with
  | EmptyString => EmptyString
  | String c s' => if isspace c then lstrip s' else s
  end.

(** [s.rstrip()]: a character stays when something non-blank follows it. *)
Fixpoint rstrip (s : string) : string :=
  match s with
  | EmptyString => EmptyString
  | String c s' =>
      match rstrip s' with
      | EmptyString => if isspace c then EmptyString else String c EmptyString
      | r => String c r
      end
  end.

(** [s.strip()] *)
Definition strip (s : string) : string := rstrip (lstrip s).

(** Truth value of an optional string: [None] and [''] are false. *)
Definition truthy (s : option string) : bool :=
  match s with
  | None | Some EmptyString => false
  | Some _ => true
  end.

End Py.

(** ** Exceptions *)

Inductive exn : Type :=
  | KeyError (key : string)
  | FileNotFoundError
  | RequestException
  | JSONDecodeError.

Inductive outcome (A : Type) : Type :=
  | Returned (a : A)
  | Raised (e : exn).
Arguments Returned {A} a.
Arguments Raised {A} e.

Global Instance outcome_ret : MRet outcome := fun _ a => Returned a.
Global Instance outcome_bind : MBind outcome := fun _ _ f m =>
  match m with
  | Returned a => f a
  | Raised e => Raised e
  end.

(** [try: body  except Exception: handler] *)
Definition try_except {A} (body : outcome A) (handler : exn -> outcome A) : outcome A :=
  match body with
  | Returned a => Returned a
  | Raised e => handler e
  end.

(** [d[key]] on an object whose key [key] holds [field] when present. *)
Definition getitem {A} (key : string) (field : option A) : outcome A :=
  match field with
  | Some v => Returned v
  | None => Raised (KeyError key)
  end.

(** [d.get(key, dflt)] *)
Definition get_default {A} (field : option A) (dflt : A) : A :=
  match field with
  | Some v => v
  | None => dflt
  end.

(** A JSON value as [json.load] and [response.json()] build it. *)
Inductive json : Type :=
  | JNull
  | JBool (b : bool)
  | JNum (n : Z)
  | JStr (s : string)
  | JList (l : list json)
  | JDict (d : gmap string json).

(** [key in d] on a JSON object. *)
Definition has_key (key : string) (d : gmap string json) : bool :=
  bool_decide (is_Some (d !! key)).

(** ** page_visibility_detector.py *)

Module PageVisibilityDetector.

(** [get_arcgis_credentials()] of config.py: every key is set, possibly
    to [None]. *)
Record Credentials := {
  client_id : option string;
  client_secret : option string;
  portal_url : string;
  base_experience_id : option string
}.

(** A page record of the [pages] mapping. *)
Record PageData := {
  label : option string;
  visible : option bool;
  showInNav : option bool
}.

(** The JSON object of the items-data endpoint: [pages] may be absent. *)
Record ExperienceData := {
  pages : option (gmap string PageData)
}.

(** What the outside answers.
    - [load_credentials]: [get_arcgis_credentials()], which raises
      [FileNotFoundError] when the global config file is missing;
    - [token_exchange creds]: [requests.post(token_url, ...).json()], the
      decoded JSON object of the token endpoint, or the exception of the
      request or of the decoding;
    - [experience_item id token]: [requests.get(exp_url, ...).json()]. *)
Record World := {
  load_credentials : outcome Credentials;
  token_exchange : Credentials -> outcome (gmap string json);
  experience_item : string -> option json -> outcome ExperienceData
}.

(** [get_arcgis_token()]: [result.get('access_token')], which is [None]
    when the key is absent. *)
Definition get_arcgis_token (w : World) : outcome (option json) :=
  creds ← load_credentials w;
  result ← token_exchange w creds;
  mret (result !! "access_token").

Definition test_keywords : list string :=
  ["test"; "beta"; "old"; "temp"; "draft"; "dev"; "debug"].
Definition construction_keywords : list string :=
  ["construction"; "wip"; "todo"; "pending"; "coming soon"].
Definition admin_keywords : list string :=
  ["admin"; "internal"; "private"; "restricted access"].
Definition hidden_page_ids : list string :=
  ["page_154"; "page_181"; "page_129"; "page_130"].

(** [should_hide_page(page_id, page_data)] *)
Definition should_hide_page (page_id : string) (page_data : PageData) : bool :=
  let page_label := Py.lower (get_default (label page_data) "") in
  if negb (get_default (visible page_data) true) then true
  else if negb (get_default (showInNav page_data) true) then true
  else if Py.any_in test_keywords page_label then true
  else if Py.any_in construction_keywords page_label then true
  else if Py.any_in admin_keywords page_label then true
  else if bool_decide (page_id ∈ hidden_page_ids) then true
  else false.

(** [get_hide_reason(page_id, page_data)] *)
Definition get_hide_reason (page_id : string) (page_data : PageData) : string :=
  let page_label := Py.lower (get_default (label page_data) "") in
  if negb (get_default (visible page_data) true) then "Not visible"
  else if negb (get_default (showInNav page_data) true) then "Hidden from navigation"
  else if Py.any_in ["test"; "beta"; "old"] page_label then "Test/development page"
  else if bool_decide (page_id ∈ ["page_154"; "page_181"; "page_129"; "page_130"])
       then "Manual override"
  else "Unknown reason".

(** One round of the loop of [get_visible_pages] over [pages.items()]. *)
Definition classify_step (page_id : string) (page_data : PageData)
    (acc : gmap string PageData * gmap string PageData)
    : gmap string PageData * gmap string PageData :=
  let '(visible_pages, hidden_pages) := acc in
  if should_hide_page page_id page_data
  then (visible_pages, <[page_id := page_data]> hidden_pages)
  else (<[page_id := page_data]> visible_pages, hidden_pages).

(** The loop: [(visible_pages, hidden_pages)] after the last page. *)
Definition classify_pages (pages : gmap string PageData)
    : gmap string PageData * gmap string PageData :=
  map_fold classify_step (∅, ∅) pages.

(** The report printed for the hidden pages: page id, printed label and
    reason, one entry per hidden page. *)
Definition hidden_report (hidden_pages : gmap string PageData)
    : gmap string (string * string) :=
  map_imap (fun page_id page_data =>
    Some (get_default (label page_data) "Unknown",
          get_hide_reason page_id page_data)) hidden_pages.

(** [get_visible_pages(experience_id)] *)
Definition get_visible_pages (w : World) (experience_id : string)
    : outcome (gmap string PageData) :=
  token ← get_arcgis_token w;
  exp_data ← experience_item w experience_id token;
  match pages exp_data with
  | None => mret ∅
  | Some pages => mret (fst (classify_pages pages))
  end.

End PageVisibilityDetector.

(** ** menu_generator.py *)

Module MenuGenerator.

(** A link object of the menu artifact. *)
Record MenuLink := {
  label : option string;
  href : option string;
  term : option string
}.

(** A category object of the menu artifact. *)
Record MenuCategory := {
  category : option string;
  color : option string;
  links : option (list MenuLink)
}.

(** An entry of [removed_items]. *)
Record RemovedItem := {
  removed_category : string;
  removed_label : string;
  removed_page_id : string
}.

(** [category_copy = category.copy(); category_copy['links'] = cleaned_links] *)
Definition with_links (cat : MenuCategory) (cleaned_links : list MenuLink) : MenuCategory :=
  {| category := category cat; color := color cat; links := Some cleaned_links |}.

(** [link['href'].split('/page/')[-1]] *)
Definition page_id_of (h : string) : string :=
  Py.last_piece (Py.split "/page/" h).

(** The loop over [category['links']], from the state
    [(cleaned_links, removed_items)] with the links [todo] still to visit. *)
Fixpoint scan_links (visible_page_ids : gset string) (cat : MenuCategory)
    (todo : list MenuLink) (cleaned_links : list MenuLink)
    (removed_items : list RemovedItem)
    : outcome (list MenuLink * list RemovedItem) :=
  match todo with
  | [] => mret (cleaned_links, removed_items)
  | link :: todo' =>
      h ← getitem "href" (href link);
      if Py.contains "/page/" h then
        let page_id := page_id_of h in
        if bool_decide (page_id ∈ visible_page_ids) then
          scan_links visible_page_ids cat todo' (cleaned_links ++ [link]) removed_items
        else
          c ← getitem "category" (category cat);
          l ← getitem "label" (label link);
          scan_links visible_page_ids cat todo' cleaned_links
            (removed_items ++
               [{| removed_category := c; removed_label := l; removed_page_id := page_id |}])
      else
        scan_links visible_page_ids cat todo' (cleaned_links ++ [link]) removed_items
  end.

(** The loop over [menu_data], from the state [(cleaned_menu, removed_items)]. *)
Fixpoint scan_categories (visible_page_ids : gset string)
    (todo : list MenuCategory) (cleaned_menu : list MenuCategory)
    (removed_items : list RemovedItem)
    : outcome (list MenuCategory * list RemovedItem) :=
  match todo with
  | [] => mret (cleaned_menu, removed_items)
  | cat :: todo' =>
      ls ← getitem "links" (links cat);
      '(cleaned_links, removed_items') ← scan_links visible_page_ids cat ls [] removed_items;
      match cleaned_links with
      | [] => scan_categories visible_page_ids todo' cleaned_menu removed_items'
      | _ :: _ =>
          scan_categories visible_page_ids todo'
            (cleaned_menu ++ [with_links cat cleaned_links]) removed_items'
      end
  end.

(** The reconciliation proper: the two loops of [validate_menu_visibility]
    run on [menu_data] against the set [visible_page_ids]; the result is
    [(cleaned_menu, removed_items)]. *)
Definition reconcile (visible_page_ids : gset string) (menu_data : list MenuCategory)
    : outcome (list MenuCategory * list RemovedItem) :=
  scan_categories visible_page_ids menu_data [] [].

(** [MenuGenerator.validate_menu_visibility(menu_data)], with
    [self.experience_id] as [experience_id]. *)
Definition validate_menu_visibility (w : PageVisibilityDetector.World)
    (experience_id : option string) (menu_data : list MenuCategory)
    : outcome (list MenuCategory) :=
  if negb (Py.truthy experience_id) then mret menu_data
  else
    try_except
      (visible_pages ← PageVisibilityDetector.get_visible_pages w
                          (get_default experience_id "");
       let visible_page_ids : gset string := dom visible_pages in
       '(cleaned_menu, _) ← reconcile visible_page_ids menu_data;
       mret cleaned_menu)
      (fun _ => mret menu_data).

End MenuGenerator.

(** ** deploy.py *)

Module Deploy.

(** [menu.json] in the working directory: absent, present but not JSON, or
    the value [json.load] returns. *)
Inductive MenuFile : Type :=
  | NoFile
  | NotJson
  | Json (menu_data : json).

(** The result of [subprocess.run(cmd, capture_output=True, text=True)]:
    [exit_ok] is a zero return code. *)
Record CompletedProcess := {
  exit_ok : bool;
  stdout : string;
  stderr : string
}.

(** The result of [requests.post]: an exception of the request, or a
    response with its [ok] flag and its body decoded by [response.json()]
    ([None] when the body is not JSON). *)
Inductive PostResult : Type :=
  | PostRaised
  | Response (ok : bool) (body : option json).

(** [get_deployment_config()] of config.py. *)
Record Config := {
  pythonanywhere_username : option string;
  pythonanywhere_domain : option string;
  menu_api_password : option string;
  menu_api_base_url : option string
}.

(** What the outside answers to a deployment run.  [run cmd] is the
    completed process of a command that could be started; [post url pw data]
    is the answer to [requests.post(url, params={'pw': pw}, json=data, ...)]. *)
Record World := {
  config : Config;
  menu_file : MenuFile;
  run : list string -> CompletedProcess;
  post : string -> option string -> json -> PostResult;
  (** [datetime.now().strftime("%Y%m%d_%H%M%S")] and
      [datetime.now().strftime("%Y-%m-%d %H:%M")] *)
  backup_stamp : string;
  commit_stamp : string
}.

(** An optional string inside an f-string. *)
Definition fmt (s : option string) : string := get_default s "None".

(** [run_command(cmd, description)]: [check=True] turns a non-zero return
    code into [CalledProcessError], which is caught. *)
Definition run_command (w : World) (cmd : list string) : bool * string :=
  let result := run w cmd in
  if exit_ok result then (true, stdout result) else (false, stderr result).

(** [check_git_status()]: no [check=True], so the [except] branch is dead. *)
Definition check_git_status (w : World) : string :=
  Py.strip (stdout (run w ["git"; "status"; "--porcelain"])).

(** [deploy_to_github(commit_message)] *)
Definition deploy_to_github (w : World) (commit_message : option string) : bool :=
  let changes := check_git_status w in
  if negb (Py.truthy (Some changes)) then true
  else
    let '(success, _) := run_command w ["git"; "add"; "."] in
    if negb success then false
    else
      let commit_message :=
        if negb (Py.truthy commit_message)
        then "Update ArcGIS Experience Builder menu - " +:+ commit_stamp w
        else get_default commit_message "" in
      let '(success, _) := run_command w ["git"; "commit"; "-m"; commit_message] in
      if negb success then false
      else
        let '(success, _) := run_command w ["git"; "push"] in
        success.

(** [x == 'message'] on an element of a list. *)
Definition is_message (x : json) : bool :=
  match x with
  | JStr s => String.eqb s "message"
  | _ => false
  end.

(** The lines behind [result = response.json()]:
    [if 'message' in result: print(f"   Response: {result['message']}")].
    They run through on an object, and on a list or a string in which
    ['message'] is not found.  On a list or a string that holds ['message']
    the subscript [result['message']] raises [TypeError]; on [None], a
    boolean or a number the test ['message' in result] itself does. *)
Definition message_lines_pass (result : json) : bool :=
  match result with
  | JDict _ => true
  | JList l => negb (existsb is_message l)
  | JStr s => negb (Py.contains "message" s)
  | JNull | JBool _ | JNum _ => false
  end.

(** [deploy_to_pythonanywhere()]: every exception ends in [return False]. *)
Definition deploy_to_pythonanywhere (w : World) : bool :=
  match menu_file w with
  | NoFile => false
  | NotJson => false
  | Json menu_data =>
      let api_url := fmt (menu_api_base_url (config w)) +:+ "/menu" in
      match post w api_url (menu_api_password (config w)) menu_data with
      | PostRaised => false
      | Response true (Some result) => message_lines_pass result
      | Response true None => false
      | Response false _ => false
      end
  end.

(** [backup_current_menu()]: the name of the copy, or [None]. *)
Definition backup_current_menu (w : World) : option string :=
  let backup_name := "menu_backup_" +:+ backup_stamp w +:+ ".json" in
  match menu_file w with
  | NoFile => None
  | _ => if exit_ok (run w ["cp"; "menu.json"; backup_name]) then Some backup_name else None
  end.

(** The checks of [validate_menu] on one link, one category, the menu. *)
Definition validate_link (link : json) : bool :=
  match link with
  | JDict d => forallb (fun field => has_key field d) ["label"; "href"; "term"]
  | _ => false
  end.

Definition validate_category (cat : json) : bool :=
  match cat with
  | JDict d =>
      forallb (fun field => has_key field d) ["category"; "color"; "links"]
      && match d !! "links" with
         | Some (JList ls) => forallb validate_link ls
         | _ => false
         end
  | _ => false
  end.

(** [validate_menu()] *)
Definition validate_menu (w : World) : bool :=
  match menu_file w with
  | NoFile => false
  | NotJson => false
  | Json (JList categories) => forallb validate_category categories
  | Json _ => false
  end.

(** [full_deployment(commit_message)] *)
Definition full_deployment (w : World) (commit_message : option string) : bool :=
  let _ := backup_current_menu w in
  if negb (validate_menu w) then false
  else
    let github_success := deploy_to_github w commit_message in
    let pythonanywhere_success := deploy_to_pythonanywhere w in
    if github_success && pythonanywhere_success then true else false.

End Deploy.

(** ** The menu tree of the data model, and reconciliation in the words of
    the specification *)

Module MenuSpec.
Import MenuGenerator.

(** A tree is well formed when every category carries [category], [color]
    and [links], and every link [label], [href] and [term]. *)
Definition valid_link (link : MenuLink) : bool :=
  match label link, href link, term link with
  | Some _, Some _, Some _ => true
  | _, _, _ => false
  end.

Definition valid_category (cat : MenuCategory) : bool :=
  match category cat, color cat, links cat with
  | Some _, Some _, Some ls => forallb valid_link ls
  | _, _, _ => false
  end.

Definition valid_menu (menu : list MenuCategory) : bool :=
  forallb valid_category menu.

(** Some category of the tree has no [links] key. *)
Definition lacks_links (menu : list MenuCategory) : bool :=
  existsb (fun cat => match links cat with Some _ => false | None => true end) menu.

Definition links_of (cat : MenuCategory) : list MenuLink :=
  get_default (links cat) [].

Definition href_of (link : MenuLink) : string := get_default (href link) "".

(** The href contains the ['/page/'] segment. *)
Definition has_page_key (link : MenuLink) : bool :=
  Py.contains "/page/" (href_of link).

(** The page key extracted from the href. *)
Definition page_key (link : MenuLink) : string := page_id_of (href_of link).

(** The keep rule: a link with a page key stays iff the key is visible, a
    link without one stays. *)
Definition keep_link (visible : gset string) (link : MenuLink) : bool :=
  if has_page_key link then bool_decide (page_key link ∈ visible) else true.

Definition kept_links (visible : gset string) (cat : MenuCategory) : list MenuLink :=
  List.filter (keep_link visible) (links_of cat).

(** A category survives, with its kept links, when one link is kept. *)
Definition surviving (visible : gset string) (cat : MenuCategory) : option MenuCategory :=
  match kept_links visible cat with
  | [] => None
  | ls => Some (with_links cat ls)
  end.

(** The reconciled tree: the surviving categories in their order, each with
    its kept links in their order. *)
Definition reconciled (visible : gset string) (menu : list MenuCategory)
    : list MenuCategory :=
  omap (surviving visible) menu.

(** The removed-items report: one entry per dropped link, in tree order. *)
Definition removed_entry (cat : MenuCategory) (link : MenuLink) : RemovedItem :=
  {| removed_category := get_default (category cat) "";
     removed_label := get_default (label link) "";
     removed_page_id := page_key link |}.

Definition removed_of (visible : gset string) (cat : MenuCategory) : list RemovedItem :=
  map (removed_entry cat)
      (List.filter (fun link => negb (keep_link visible link)) (links_of cat)).

Definition removed_report (visible : gset string) (menu : list MenuCategory)
    : list RemovedItem :=
  List.concat (map (removed_of visible) menu).

(** The category keeps at least one link. *)
Definition keeps_some (visible : gset string) (cat : MenuCategory) : bool :=
  match kept_links visible cat with
  | [] => false
  | _ :: _ => true
  end.

(** Every link with a page key refers to a visible page. *)
Definition clean (visible : gset string) (menu : list MenuCategory) : bool :=
  forallb (fun cat => forallb (keep_link visible) (links_of cat)) menu.

(** Every category has at least one link. *)
Definition has_links (cat : MenuCategory) : bool :=
  match links cat with
  | Some (_ :: _) => true
  | _ => false
  end.

End MenuSpec.

(** ** The outcomes of a deployment run, as a caller would tell them apart *)

Module DeploySpec.

Inductive PublishSummary : Type :=
  | BothFailed
  | OneFailed
  | BothSucceeded.

Definition publish_summary (github_success pythonanywhere_success : bool)
    : PublishSummary :=
  match github_success, pythonanywhere_success with
  | true, true => BothSucceeded
  | false, false => BothFailed
  | _, _ => OneFailed
  end.

End DeploySpec.

(** ** Concrete pages, trees and worlds *)

Module Examples.

Definition experience_id : string := "ce0b7dc7574c49a8a82f36443fee494f".

(** A link as [create_menu_item] builds it. *)
Definition page_link (label page_id : string) : MenuGenerator.MenuLink :=
  {| MenuGenerator.label := Some label;
     MenuGenerator.href :=
       Some ("https://experience.arcgis.com/experience/" +:+ experience_id
             +:+ "/page/" +:+ page_id);
     MenuGenerator.term := Some label |}.

Definition external_link : MenuGenerator.MenuLink :=
  {| MenuGenerator.label := Some "Red Cross";
     MenuGenerator.href := Some "https://www.redcross.org/";
     MenuGenerator.term := Some "Red Cross" |}.

(** One category with links to page_84, page_95 and page_96. *)
Definition weather_menu : list MenuGenerator.MenuCategory :=
  [ {| MenuGenerator.category := Some "2 Weather";
       MenuGenerator.color := Some "btn-blue";
       MenuGenerator.links :=
         Some [page_link "Precipitation" "page_84";
               page_link "Flood Prediction" "page_95";
               page_link "Fire Weather" "page_96"] |} ].

Definition weather_visible : gset string := {[ "page_84"; "page_95" ]}.

(** The same tree after reconciliation against [weather_visible], followed
    by an external link. *)
Definition weather_clean_menu : list MenuGenerator.MenuCategory :=
  [ {| MenuGenerator.category := Some "2 Weather";
       MenuGenerator.color := Some "btn-blue";
       MenuGenerator.links :=
         Some [page_link "Precipitation" "page_84";
               page_link "Flood Prediction" "page_95";
               external_link] |} ].

(** A well-formed tree whose only category has no link at all. *)
Definition empty_shell_menu : list MenuGenerator.MenuCategory :=
  [ {| MenuGenerator.category := Some "8 Regional Risk Tool";
       MenuGenerator.color := Some "btn-black";
       MenuGenerator.links := Some [] |} ].

(** A malformed tree: the category has no [links] key. *)
Definition menu_without_links : list MenuGenerator.MenuCategory :=
  [ {| MenuGenerator.category := Some "8 Regional Risk Tool";
       MenuGenerator.color := Some "btn-black";
       MenuGenerator.links := None |} ].

Definition page (label : string) : PageVisibilityDetector.PageData :=
  {| PageVisibilityDetector.label := Some label;
     PageVisibilityDetector.visible := None;
     PageVisibilityDetector.showInNav := None |}.

(** A page switched off on the platform whose label also says "test". *)
Definition invisible_test_page : PageVisibilityDetector.PageData :=
  {| PageVisibilityDetector.label := Some "Trucks_Trailers Test";
     PageVisibilityDetector.visible := Some false;
     PageVisibilityDetector.showInNav := Some true |}.

(** A page that only rule 4 catches. *)
Definition wip_page : PageVisibilityDetector.PageData := page "WIP Dashboard".

Definition live_pages : gmap string PageVisibilityDetector.PageData :=
  {[ "page_84" := page "Precipitation";
     "page_95" := page "Flood Prediction";
     "page_96" := page "Fire Weather (draft)" ]}.

Definition creds : PageVisibilityDetector.Credentials :=
  {| PageVisibilityDetector.client_id := Some "client";
     PageVisibilityDetector.client_secret := Some "secret";
     PageVisibilityDetector.portal_url := "https://experience.arcgis.com";
     PageVisibilityDetector.base_experience_id := Some experience_id |}.

Definition granted : gmap string json :=
  {[ "access_token" := JStr "t0k3n"; "expires_in" := JNum 7200 ]}.


(** The platform answers both requests. *)
Definition online (pages : option (gmap string PageVisibilityDetector.PageData))
    : PageVisibilityDetector.World :=
  {| PageVisibilityDetector.load_credentials := Returned creds;
     PageVisibilityDetector.token_exchange := fun _ => Returned granted;
     PageVisibilityDetector.experience_item := fun _ _ =>
       Returned {| PageVisibilityDetector.pages := pages |} |}.

(** The token is granted, the page request fails. *)
Definition fetch_fails : PageVisibilityDetector.World :=
  {| PageVisibilityDetector.load_credentials := Returned creds;
     PageVisibilityDetector.token_exchange := fun _ => Returned granted;
     PageVisibilityDetector.experience_item := fun _ _ => Raised RequestException |}.


(** A valid menu artifact on disk. *)
Definition artifact : json :=
  JList [ JDict {[ "category" := JStr "2 Weather";
                   "color" := JStr "btn-blue";
                   "links" := JList [ JDict {[ "label" := JStr "Precipitation";
                                               "href" := JStr "https://www.weather.gov/";
                                               "term" := JStr "Precipitation" ]} ] ]} ].

Definition deploy_config : Deploy.Config :=
  {| Deploy.pythonanywhere_username := Some "ops";
     Deploy.pythonanywhere_domain := Some "ops.pythonanywhere.com";
     Deploy.menu_api_password := Some "pw";
     Deploy.menu_api_base_url := Some "https://ops.pythonanywhere.com" |}.

(** Local changes are pending; [git push] is rejected, every other command
    succeeds. *)
Definition push_rejected (cmd : list string) : Deploy.CompletedProcess :=
  if decide (cmd = ["git"; "push"])
  then {| Deploy.exit_ok := false; Deploy.stdout := "";
          Deploy.stderr := "! [rejected] main -> main (fetch first)" |}
  else if decide (cmd = ["git"; "status"; "--porcelain"])
  then {| Deploy.exit_ok := true; Deploy.stdout := " M menu.json"; Deploy.stderr := "" |}
  else {| Deploy.exit_ok := true; Deploy.stdout := "ok"; Deploy.stderr := "" |}.

(** Nothing to commit. *)
Definition tree_clean (cmd : list string) : Deploy.CompletedProcess :=
  {| Deploy.exit_ok := true; Deploy.stdout := ""; Deploy.stderr := "" |}.

Definition deploy_world (run : list string -> Deploy.CompletedProcess)
    (post : Deploy.PostResult) : Deploy.World :=
  {| Deploy.config := deploy_config;
     Deploy.menu_file := Deploy.Json artifact;
     Deploy.run := run;
     Deploy.post := fun _ _ _ => post;
     Deploy.backup_stamp := "20250101_120000";
     Deploy.commit_stamp := "2025-01-01 12:00" |}.

Definition accepted : Deploy.PostResult :=
  Deploy.Response true (Some (JDict {[ "message" := JStr "Menu updated" ]})).

Definition refused : Deploy.PostResult :=
  Deploy.Response false (Some (JDict {[ "error" := JStr "Unauthorized" ]})).

(** Push rejected, HTTP publish accepted. *)
Definition vcs_failed_http_ok : Deploy.World := deploy_world push_rejected accepted.

(** Push rejected, HTTP publish refused. *)
Definition both_failed : Deploy.World := deploy_world push_rejected refused.

(** Nothing to push, HTTP publish accepted. *)
Definition both_ok : Deploy.World := deploy_world tree_clean accepted.

End Examples.

(** ** config.py *)

Module Config.

(** [s.startswith(p)] *)
Definition startswith (p s : string) : bool := String.prefix p s.

(** [s.split(sep, 1)]: at most one cut, at the leftmost occurrence. *)
Definition split_once (sep s : string) : list string :=
  match Py.find sep s with
  | None => [s]
  | Some i => [Py.take i s; Py.drop (i + String.length sep) s]
  end.

(** One round of the loop of [load_global_config] over the lines of the
    file.  [key, value = line.split('=', 1)] always unpacks two pieces here,
    because the line contains ['=']. *)
Definition read_line (config : gmap string string) (line : string)
    : gmap string string :=
  let line := Py.strip line in
  if Py.truthy (Some line) && negb (startswith "#" line) && Py.contains "=" line then
    match split_once "=" line with
    | [key; value] => <[Py.strip key := Py.strip value]> config
    | _ => config
    end
  else config.

(** [load_global_config()]: [env_file] is the global config file as the
    list of its lines, [None] when it does not exist. *)
Definition load_global_config (env_file : option (list string))
    : outcome (gmap string string) :=
  match env_file with
  | None => Raised FileNotFoundError
  | Some lines => Returned (foldl read_line ∅ lines)
  end.

(** [get_arcgis_credentials()] *)
Definition get_arcgis_credentials (env_file : option (list string))
    : outcome PageVisibilityDetector.Credentials :=
  config ← load_global_config env_file;
  mret {| PageVisibilityDetector.client_id := config !! "ARCGIS_CLIENT_ID";
          PageVisibilityDetector.client_secret := config !! "ARCGIS_CLIENT_SECRET";
          PageVisibilityDetector.portal_url :=
            get_default (config !! "ARCGIS_PORTAL_URL") "https://experience.arcgis.com";
          PageVisibilityDetector.base_experience_id :=
            config !! "ARCGIS_BASE_EXPERIENCE_ID" |}.

(** [get_deployment_config()] *)
Definition get_deployment_config (env_file : option (list string))
    : outcome Deploy.Config :=
  config ← load_global_config env_file;
  mret {| Deploy.pythonanywhere_username := config !! "PYTHONANYWHERE_USERNAME";
          Deploy.pythonanywhere_domain := config !! "PYTHONANYWHERE_DOMAIN";
          Deploy.menu_api_password := config !! "MENU_API_PASSWORD";
          Deploy.menu_api_base_url := config !! "MENU_API_BASE_URL" |}.

(** [experience_id or config['base_experience_id']] *)
Definition experience_or_base (experience_id base : option string) : option string :=
  if Py.truthy experience_id then experience_id else base.

(** [build_experience_url(page_id, experience_id)] *)
Definition build_experience_url (env_file : option (list string))
    (page_id : string) (experience_id : option string) : outcome string :=
  config ← get_arcgis_credentials env_file;
  let exp_id :=
    experience_or_base experience_id (PageVisibilityDetector.base_experience_id config) in
  let portal_url := PageVisibilityDetector.portal_url config in
  mret (portal_url +:+ "/experience/" +:+ Deploy.fmt exp_id +:+ "/page/" +:+ page_id).

(** [create_menu_item(label, page_id, search_terms, experience_id)] *)
Definition create_menu_item (env_file : option (list string))
    (label page_id search_terms : string) (experience_id : option string)
    : outcome MenuGenerator.MenuLink :=
  href ← build_experience_url env_file page_id experience_id;
  mret {| MenuGenerator.label := Some label;
          MenuGenerator.href := Some href;
          MenuGenerator.term :=
            Some (if Py.truthy (Some search_terms) then search_terms else label) |}.

End Config.

(** ** menu_generator.py: building and saving a menu *)

Module MenuBuilder.
Import MenuGenerator.

(** An element of [items]: the keys ['label'], ['page_id'] and the optional
    ['search_terms']. *)
Record MenuItem := {
  item_label : option string;
  item_page_id : option string;
  item_search_terms : option string
}.

(** The loop of [create_category] over [items], from the list [links]
    built so far. *)
Fixpoint create_links (env_file : option (list string)) (experience_id : option string)
    (items : list MenuItem) (links : list MenuLink) : outcome (list MenuLink) :=
  match items with
  | [] => mret links
  | item :: items' =>
      l ← getitem "label" (item_label item);
      p ← getitem "page_id" (item_page_id item);
      menu_item ← Config.create_menu_item env_file l p
                     (get_default (item_search_terms item) "") experience_id;
      create_links env_file experience_id items' (links ++ [menu_item])
  end.

(** [MenuGenerator.create_category(category_name, color, items)], with
    [self.experience_id] as [experience_id]. *)
Definition create_category (env_file : option (list string))
    (experience_id : option string) (category_name color : string)
    (items : list MenuItem) : outcome MenuCategory :=
  links ← create_links env_file experience_id items [];
  mret {| category := Some category_name; color := Some color; links := Some links |}.

(** The JSON value of a tree, as [json.dump] writes it and [json.load]
    reads it back: an object holds the keys that are present. *)
Definition put (key : string) (field : option json) (d : gmap string json)
    : gmap string json :=
  match field with
  | Some v => <[key := v]> d
  | None => d
  end.

Definition link_to_json (link : MenuLink) : json :=
  JDict (put "label" (JStr <$> label link)
           (put "href" (JStr <$> href link)
              (put "term" (JStr <$> term link) ∅))).

Definition category_to_json (cat : MenuCategory) : json :=
  JDict (put "category" (JStr <$> category cat)
           (put "color" (JStr <$> color cat)
              (put "links" ((fun ls => JList (map link_to_json ls)) <$> links cat) ∅))).

Definition menu_to_json (menu_data : list MenuCategory) : json :=
  JList (map category_to_json menu_data).

(** [MenuGenerator.save_menu(menu_data, filename, validate_visibility)]:
    the value written to the file. *)
Definition save_menu (w : PageVisibilityDetector.World) (experience_id : option string)
    (menu_data : list MenuCategory) (validate_visibility : bool) : outcome json :=
  menu_data ← (if validate_visibility
               then validate_menu_visibility w experience_id menu_data
               else mret menu_data);
  mret (menu_to_json menu_data).

End MenuBuilder.

(** ** page_visibility_detector.py: checking a menu *)

Module MenuCheck.
Import MenuGenerator.

(** An entry of [issues]. *)
Record Issue := {
  issue_category : string;
  issue_label : string;
  issue_page_id : string;
  issue : string
}.

(** The loop of [validate_menu_against_visibility] over [category['links']]. *)
Fixpoint check_links (visible_page_ids : gset string) (cat : MenuCategory)
    (todo : list MenuLink) (issues : list Issue) : outcome (list Issue) :=
  match todo with
  | [] => mret issues
  | link :: todo' =>
      h ← getitem "href" (href link);
      if Py.contains "/page/" h then
        let page_id := page_id_of h in
        if negb (bool_decide (page_id ∈ visible_page_ids)) then
          c ← getitem "category" (category cat);
          l ← getitem "label" (label link);
          check_links visible_page_ids cat todo'
            (issues ++ [{| issue_category := c; issue_label := l;
                           issue_page_id := page_id;
                           issue := "Links to hidden page" |}])
        else check_links visible_page_ids cat todo' issues
      else check_links visible_page_ids cat todo' issues
  end.

(** The loop over [menu_data]. *)
Fixpoint check_categories (visible_page_ids : gset string)
    (todo : list MenuCategory) (issues : list Issue) : outcome (list Issue) :=
  match todo with
  | [] => mret issues
  | cat :: todo' =>
      ls ← getitem "links" (links cat);
      issues' ← check_links visible_page_ids cat ls issues;
      check_categories visible_page_ids todo' issues'
  end.

(** [validate_menu_against_visibility(menu_data, experience_id)] *)
Definition validate_menu_against_visibility (w : PageVisibilityDetector.World)
    (menu_data : list MenuCategory) (experience_id : string) : outcome (list Issue) :=
  visible_pages ← PageVisibilityDetector.get_visible_pages w experience_id;
  let visible_page_ids : gset string := dom visible_pages in
  check_categories visible_page_ids menu_data [].

End MenuCheck.
(** ** fix_page_urls.py *)

Module FixPageUrls.
Import MenuGenerator.

(** [PAGE_MAPPING]: menu label to page id. *)
Definition PAGE_MAPPING : gmap string string :=
  list_to_map [
    ("National", "page_84");
    ("Heat Risk", "page_95");
    ("FY 25 Incidents", "page_96");
    ("DCS 5 Year Plan", "page_97");
    ("DCS Narrative", "page_98");
    ("Global Trends", "page_99");
    ("DOCC Portal", "page_100");
    ("Current OPS Report", "page_101");
    ("Power Outages", "page_102");
    ("Storm Prediction Center", "page_104");
    ("Precipitation", "page_106");
    ("Flood Prediction", "page_107");
    ("Natl Hurricane Center", "page_108");
    ("Air Reconnaissance", "page_161");
    ("7 DAY Fire Risk", "page_109");
    ("California EMS", "page_111");
    ("Natl Interagency FIRE", "page_112");
    ("Weather - General", "page_173");
    ("Tropical Hazards", "page_174");
    ("Fire Weather", "page_175");
    ("National Sheltering", "page_114");
    ("Current Open Shelters", "page_122");
    ("Shelter Intake", "page_123");
    ("SCIA Operational Dashboard", "page_176");
    ("Restricted SCIA Access Request", "page_177");
    ("Staffing", "page_116");
    ("Staff Capacity Building", "page_168");
    ("EBV - Event Volunteers", "page_124");
    ("DST - Disaster Tech", "page_125");
    ("IKD - InKind Donations", "page_126");
    ("Trailers & Assets", "page_127");
    ("ERV - Emergency vehicles", "page_128");
    ("Resourcing", "page_150");
    ("Speed to Scale", "page_169");
    ("1 800 Red Cross", "page_117");
    ("DOCC Current OPS", "page_119");
    ("NIC Teams DRO Leadership", "page_132");
    ("Active DROs", "page_133");
    ("Natl Activation Levels", "page_134");
    ("DRO Call Agenda", "page_135");
    ("Dist Partner Hub", "page_136");
    ("Hurricane Advance Planning", "page_170");
    ("DR 503-25 South Texas", "page_139");
    ("DR 535-25 Missouri/Ark", "page_140");
    ("DR 539-25 Kentucky", "page_141");
    ("DR 540-25 Tennessee", "page_155");
    ("DR 548-25 Indiana", "page_156");
    ("DR 550-25 Illinois", "page_157");
    ("DR 515-25 Harney, Oregon", "page_158");
    ("DR 497-25 Oklahoma", "page_159");
    ("DR Comp BETA", "page_172");
    ("Client Assistance", "page_118");
    ("IDC Financial", "page_142");
    ("Bridge", "page_162");
    ("DAT", "page_171");
    ("Level 1-2 Casework FA", "page_163");
    ("Request Access", "page_164");
    ("Disaster Current OPs Dashboard", "page_165");
    ("Nat'l Operations - Client Assistance", "page_166");
    ("Bridge Dashboard Historical Info", "page_167");
    ("Regional Risk Tool", "page_120");
    ("CAP Website", "page_121");
    ("Housing Resources", "page_149") ].

Definition BASE_URL : string :=
  "https://experience.arcgis.com/experience/ce0b7dc7574c49a8a82f36443fee494f/page/".

(** [link['href'] = new_href] *)
Definition set_href (link : MenuLink) (new_href : string) : MenuLink :=
  {| label := label link; href := Some new_href; term := term link |}.

(** The loop of [fix_menu_urls] over [category['links']], from the state
    [(fixed_count, missing_count)]; [visited] are the links already passed,
    as the loop left them. *)
Fixpoint fix_links (todo visited : list MenuLink) (fixed_count missing_count : nat)
    : outcome (list MenuLink * nat * nat) :=
  match todo with
  | [] => mret (visited, fixed_count, missing_count)
  | link :: todo' =>
      l ← getitem "label" (label link);
      old_href ← getitem "href" (href link);
      match PAGE_MAPPING !! l with
      | Some page_id =>
          let new_href := BASE_URL +:+ page_id in
          fix_links todo' (visited ++ [set_href link new_href])
            (S fixed_count) missing_count
      | None =>
          fix_links todo' (visited ++ [link]) fixed_count (S missing_count)
      end
  end.

(** The loop over [menu_data]; the f-string of the first [print] reads
    [category['category']]. *)
Fixpoint fix_categories (todo visited : list MenuCategory)
    (fixed_count missing_count : nat)
    : outcome (list MenuCategory * nat * nat) :=
  match todo with
  | [] => mret (visited, fixed_count, missing_count)
  | cat :: todo' =>
      _ ← getitem "category" (category cat);
      ls ← getitem "links" (links cat);
      '(ls', fixed_count', missing_count') ←
        fix_links ls [] fixed_count missing_count;
      fix_categories todo' (visited ++ [with_links cat ls'])
        fixed_count' missing_count'
  end.

(** [fix_menu_urls()] on the tree [menu_data] read from [menu.json]: the
    tree written to [menu_fixed.json] and the two counters. *)
Definition fix_menu_urls (menu_data : list MenuCategory)
    : outcome (list MenuCategory * nat * nat) :=
  fix_categories menu_data [] 0 0.

End FixPageUrls.
(** ** Measures and views used by the further properties *)

Module MenuFacts.
Import MenuGenerator MenuSpec.

(** The number of links of a tree. *)
Definition count_links (menu : list MenuCategory) : nat :=
  sum_list (map (fun cat => length (links_of cat)) menu).

(** A removed item seen as an issue. *)
Definition to_issue (item : RemovedItem) : MenuCheck.Issue :=
  {| MenuCheck.issue_category := removed_category item;
     MenuCheck.issue_label := removed_label item;
     MenuCheck.issue_page_id := removed_page_id item;
     MenuCheck.issue := "Links to hidden page" |}.

End MenuFacts.
(** ** Shapes of config lines *)

Module ConfigFacts.

(** The string consists of whitespace only. *)
Fixpoint blank (s : string) : bool :=
  match s with
  | EmptyString => true
  | String c s' => Py.isspace c && blank s'
  end.

End ConfigFacts.
(** ** What [create_category] builds *)

Module BuilderFacts.
Import MenuGenerator MenuBuilder.

(** The part of every built URL in front of ['/page/']. *)
Definition url_base (creds : PageVisibilityDetector.Credentials)
    (experience_id : option string) : string :=
  PageVisibilityDetector.portal_url creds +:+ "/experience/"
  +:+ Deploy.fmt (Config.experience_or_base experience_id
                    (PageVisibilityDetector.base_experience_id creds)).

(** The item has the two keys [create_category] subscripts. *)
Definition complete_item (item : MenuItem) : bool :=
  match item_label item, item_page_id item with
  | Some _, Some _ => true
  | _, _ => false
  end.

Definition page_id_of_item (item : MenuItem) : string :=
  get_default (item_page_id item) "".

(** The link of an item: the search terms default to the label. *)
Definition item_link (creds : PageVisibilityDetector.Credentials)
    (experience_id : option string) (item : MenuItem) : MenuLink :=
  let l := get_default (item_label item) "" in
  let search_terms := get_default (item_search_terms item) "" in
  {| label := Some l;
     href := Some (url_base creds experience_id +:+ "/page/" +:+ page_id_of_item item);
     term := Some (match search_terms with EmptyString => l | _ => search_terms end) |}.

End BuilderFacts.
(** ** Views of a deployment world *)

Module DeployFacts.
Import Deploy.

(** The message [deploy_to_github] commits with: the caller's, or the
    timestamped default when there is none or it is empty. *)
Definition used_message (w : World) (commit_message : option string) : string :=
  match commit_message with
  | Some (String c m) => String c m
  | _ => "Update ArcGIS Experience Builder menu - " +:+ commit_stamp w
  end.

End DeployFacts.
(** ** What [fix_menu_urls] does to a tree *)

Module FixFacts.
Import MenuGenerator MenuSpec FixPageUrls.

(** The page id [PAGE_MAPPING] has for the label of the link. *)
Definition mapped (link : MenuLink) : option string :=
  match label link with
  | Some l => PAGE_MAPPING !! l
  | None => None
  end.

Definition is_mapped (link : MenuLink) : bool :=
  match mapped link with
  | Some _ => true
  | None => false
  end.

(** A link after the run: a new href when its label is mapped. *)
Definition fix_link (link : MenuLink) : MenuLink :=
  match mapped link with
  | Some page_id => set_href link (BASE_URL +:+ page_id)
  | None => link
  end.

Definition fixed_menu (menu : list MenuCategory) : list MenuCategory :=
  map (fun cat => with_links cat (map fix_link (links_of cat))) menu.

(** The links of the tree whose label is mapped. *)
Definition count_mapped (menu : list MenuCategory) : nat :=
  sum_list (map (fun cat => length (List.filter is_mapped (links_of cat))) menu).

End FixFacts.
(** ** Trees that only carry what the loops read *)

Module TreeShapes.
Import MenuGenerator.

(** Every category has [links] and every link has [href]; nothing is said
    about [category], [color], [label] and [term]. *)
Definition hrefs_present (menu : list MenuCategory) : bool :=
  forallb (fun cat =>
             match links cat with
             | Some ls =>
                 forallb (fun link => match href link with
                                      | Some _ => true
                                      | None => false
                                      end) ls
             | None => false
             end) menu.

End TreeShapes.
(** ** The reconciled tree field by field, and the page key in the words
    of the specification *)

Module KeySpec.
Import MenuGenerator MenuSpec.

(** [out] is made of the categories of [menu] that keep a link, in their
    order, each with its name, its colour and exactly its kept links in
    their order. *)
Definition reconciliation_of (visible : gset string)
    (menu out : list MenuCategory) : Prop :=
  Forall2 (fun out_cat cat =>
             category out_cat = category cat
             ∧ color out_cat = color cat
             ∧ links out_cat = Some (List.filter (keep_link visible) (links_of cat)))
          out (List.filter (keeps_some visible) menu).

(** The text behind the last occurrence of [sep] in [s], [None] when [sep]
    does not occur.  The occurrence that starts furthest to the right
    counts, whether or not it overlaps an earlier one. *)
Fixpoint after_last (sep s : string) : option string :=
  match match s with
        | EmptyString => None
        | String _ s' => after_last sep s'
        end with
  | Some k => Some k
  | None =>
      if String.prefix sep s then Some (Py.drop (String.length sep) s) else None
  end.

(** A link to a page whose URL has two overlapping markers, and a tree
    holding just this link. *)
Definition overlap_link : MenuLink :=
  {| label := Some "Precipitation";
     href := Some ("https://experience.arcgis.com/experience/"
                   +:+ Examples.experience_id +:+ "/page/page/page_84");
     term := Some "Precipitation" |}.

Definition overlap_menu : list MenuCategory :=
  [ {| category := Some "2 Weather"; color := Some "btn-blue";
       links := Some [overlap_link] |} ].

End KeySpec.
(** * Properties *)

(** ** Python strings *)
Section PyStrings.

Lemma str_app_nil_l (s : string) : "" +:+ s = s.
Proof. reflexivity. Qed.

Lemma str_app_cons (c : ascii) (s t : string) : String c s +:+ t = String c (s +:+ t).
Proof. reflexivity. Qed.

Lemma str_app_nil_r (s : string) : s +:+ "" = s.
Proof. induction s as [|c s IH]; [done|]. by rewrite str_app_cons, IH. Qed.

Lemma str_app_assoc (s t u : string) : (s +:+ t) +:+ u = s +:+ t +:+ u.
Proof. induction s as [|c s IH]; [done|]. by rewrite !str_app_cons, IH. Qed.

Lemma str_length_app (s t : string) :
  String.length (s +:+ t) = String.length s + String.length t.
Proof. induction s as [|c s IH]; [done|]. rewrite str_app_cons. simpl. by rewrite IH. Qed.

Lemma str_prefix_iff (p s : string) :
  String.prefix p s = true ↔ ∃ r, s = p +:+ r.
Proof.
  revert s. induction p as [|c p IH]; intros s.
  - split; [intros _; by exists s|]. intros _. by destruct s.
  - destruct s as [|d s]; simpl.
    + split; [done|]. intros [r Hr]. by rewrite str_app_cons in Hr.
    + destruct (ascii_dec c d) as [->|Hne].
      * rewrite IH. split; intros [r Hr]; exists r.
        -- by rewrite str_app_cons, Hr.
        -- rewrite str_app_cons in Hr. by simplify_eq.
      * split; [done|]. intros [r Hr]. rewrite str_app_cons in Hr. by simplify_eq.
Qed.

#[local] Arguments String.prefix : simpl never.

Lemma str_take_drop (n : nat) (s : string) : Py.take n s +:+ Py.drop n s = s.
Proof.
  revert s. induction n as [|n IH]; intros [|c s]; simpl; try done.
  by rewrite str_app_cons, IH.
Qed.

Lemma str_drop_app_length (p r : string) : Py.drop (String.length p) (p +:+ r) = r.
Proof. induction p as [|c p IH]; [by destruct r|]. by rewrite str_app_cons. Qed.

Lemma str_drop_drop (n m : nat) (s : string) : Py.drop m (Py.drop n s) = Py.drop (n + m) s.
Proof.
  revert s. induction n as [|n IH]; intros s; [done|].
  destruct s as [|c s]; simpl; [by destruct m|]. apply IH.
Qed.

Lemma str_length_drop (n : nat) (s : string) :
  String.length (Py.drop n s) = String.length s - n.
Proof. revert s. induction n as [|n IH]; intros [|c s]; simpl; auto with lia. Qed.

Lemma find_Some (sub s : string) (i : nat) :
  Py.find sub s = Some i →
  s = Py.take i s +:+ sub +:+ Py.drop (i + String.length sub) s.
Proof.
  revert i. induction s as [|c s IH]; intros i; simpl.
  - destruct (String.prefix sub "") eqn:Hp; [|done].
    intros [= <-]. apply str_prefix_iff in Hp as [r Hr].
    destruct sub; [done|by rewrite str_app_cons in Hr].
  - destruct (String.prefix sub (String c s)) eqn:Hp.
    + intros [= <-]. apply str_prefix_iff in Hp as [r Hr].
      rewrite str_app_nil_l. simpl Nat.add. rewrite Hr at 2. by rewrite str_drop_app_length.
    + destruct (Py.find sub s) as [j|] eqn:Hf; [|done].
      intros [= <-]. simpl. rewrite str_app_cons. f_equal. by apply IH.
Qed.

Lemma find_Some_bound (sub s : string) (i : nat) :
  Py.find sub s = Some i → i + String.length sub ≤ String.length s.
Proof.
  revert i. induction s as [|c s IH]; intros i; simpl.
  - destruct (String.prefix sub "") eqn:Hp; [|done].
    intros [= <-]. apply str_prefix_iff in Hp as [r Hr].
    destruct sub; [simpl; lia|by rewrite str_app_cons in Hr].
  - destruct (String.prefix sub (String c s)) eqn:Hp.
    + intros [= <-]. apply str_prefix_iff in Hp as [r Hr].
      change (S (String.length s)) with (String.length (String c s)).
      rewrite Hr, str_length_app. lia.
    + destruct (Py.find sub s) as [j|] eqn:Hf; [|done].
      intros [= <-]. specialize (IH j eq_refl). lia.
Qed.

Lemma find_None (sub s : string) :
  Py.find sub s = None → ∀ pre post, s ≠ pre +:+ sub +:+ post.
Proof.
  induction s as [|c s IH]; simpl.
  - destruct (String.prefix sub "") eqn:Hp; [done|]. intros _ pre post Heq.
    assert (String.prefix sub "" = true); [|congruence].
    apply str_prefix_iff. exists post. destruct pre; [done|by rewrite str_app_cons in Heq].
  - destruct (String.prefix sub (String c s)) eqn:Hp; [done|].
    destruct (Py.find sub s) eqn:Hf; [done|]. intros _ pre post Heq.
    destruct pre as [|d pre].
    + assert (String.prefix sub (String c s) = true); [|congruence].
      apply str_prefix_iff. by exists post.
    + rewrite str_app_cons in Heq. simplify_eq. by eapply IH.
Qed.

Lemma contains_iff (sub s : string) :
  Py.contains sub s = true ↔ ∃ pre post, s = pre +:+ sub +:+ post.
Proof.
  unfold Py.contains. destruct (Py.find sub s) as [i|] eqn:Hf.
  - split; [intros _|done]. eexists _, _. by apply find_Some.
  - split; [done|]. intros (pre & post & Heq). by eapply find_None in Heq.
Qed.

End PyStrings.

Section PySplit.

Lemma split_fuel_nonempty (fuel : nat) (sep s : string) :
  Py.split_fuel fuel sep s ≠ [].
Proof. destruct fuel; simpl; [done|]. by destruct (Py.find sep s). Qed.

Lemma join_cons (sep p : string) (rest : list string) :
  rest ≠ [] → Py.join sep (p :: rest) = p +:+ sep +:+ Py.join sep rest.
Proof. by destruct rest. Qed.

Lemma last_piece_cons (p : string) (rest : list string) :
  rest ≠ [] → Py.last_piece (p :: rest) = Py.last_piece rest.
Proof. by destruct rest. Qed.

(** Joining the pieces with the separator gives the string back, whatever
    the fuel. *)
Lemma split_fuel_join (fuel : nat) (sep s : string) :
  Py.join sep (Py.split_fuel fuel sep s) = s.
Proof.
  revert s. induction fuel as [|fuel IH]; intros s; simpl; [done|].
  destruct (Py.find sep s) as [i|] eqn:Hf; [|done].
  rewrite join_cons by apply split_fuel_nonempty.
  rewrite IH. symmetry. by apply find_Some.
Qed.

Lemma contains_nil_r (sep : string) : sep ≠ "" → Py.contains sep "" = false.
Proof. by destruct sep. Qed.

(** With [String.length s] rounds no occurrence is left in the last piece:
    the fuel of [split] never runs out. *)
Lemma split_fuel_last_clean (fuel : nat) (sep s : string) :
  sep ≠ "" → String.length s ≤ fuel →
  Py.contains sep (Py.last_piece (Py.split_fuel fuel sep s)) = false.
Proof.
  intros Hsep. revert s. induction fuel as [|fuel IH]; intros s Hlen; simpl.
  - destruct s; [|simpl in Hlen; lia]. by apply contains_nil_r.
  - destruct (Py.find sep s) as [i|] eqn:Hf.
    + rewrite last_piece_cons by apply split_fuel_nonempty.
      apply IH. rewrite str_length_drop.
      apply find_Some_bound in Hf. destruct sep; [done|]. simpl in *. lia.
    + unfold Py.last_piece, Py.contains. simpl. by rewrite Hf.
Qed.

(** Either nothing was cut, or the last piece is what follows a separator. *)
Lemma split_fuel_last_suffix (fuel : nat) (sep s : string) :
  Py.split_fuel fuel sep s = [s] ∨
  ∃ pre, s = pre +:+ sep +:+ Py.last_piece (Py.split_fuel fuel sep s).
Proof.
  revert s. induction fuel as [|fuel IH]; intros s; simpl; [by left|].
  destruct (Py.find sep s) as [i|] eqn:Hf; [right|by left].
  rewrite last_piece_cons by apply split_fuel_nonempty.
  apply find_Some in Hf.
  destruct (IH (Py.drop (i + String.length sep) s)) as [->|[pre Hpre]].
  - by exists (Py.take i s).
  - exists (Py.take i s +:+ sep +:+ pre).
    rewrite !str_app_assoc, <-Hpre. done.
Qed.

(** More fuel than the length of the string changes nothing. *)
Lemma split_fuel_enough (fuel1 fuel2 : nat) (sep s : string) :
  sep ≠ "" → String.length s ≤ fuel1 → String.length s ≤ fuel2 →
  Py.split_fuel fuel1 sep s = Py.split_fuel fuel2 sep s.
Proof.
  intros Hsep. revert fuel2 s.
  induction fuel1 as [|fuel1 IH]; intros fuel2 s Hlen1 Hlen2.
  - destruct s; [|simpl in Hlen1; lia].
    destruct fuel2; [done|]. simpl. by destruct sep.
  - destruct fuel2 as [|fuel2].
    + destruct s; [|simpl in Hlen2; lia]. simpl. by destruct sep.
    + simpl. destruct (Py.find sep s) as [i|] eqn:Hf; [|done].
      f_equal. apply find_Some_bound in Hf.
      assert (0 < String.length sep) by (destruct sep; [done|simpl; lia]).
      apply IH; rewrite str_length_drop; lia.
Qed.

Lemma split_no_sep (sep s : string) :
  Py.contains sep s = false → Py.split sep s = [s].
Proof.
  unfold Py.contains, Py.split. intros Hc.
  destruct (String.length s); simpl; [done|]. by destruct (Py.find sep s).
Qed.

Lemma split_last_clean (sep s : string) :
  sep ≠ "" → Py.contains sep (Py.last_piece (Py.split sep s)) = false.
Proof. intros. by apply split_fuel_last_clean. Qed.

Lemma split_last_suffix (sep s : string) :
  sep ≠ "" → Py.contains sep s = true →
  ∃ pre, s = pre +:+ sep +:+ Py.last_piece (Py.split sep s).
Proof.
  intros Hsep Hc. destruct (split_fuel_last_suffix (String.length s) sep s)
    as [Heq|Hpre]; [|done].
  exfalso. pose proof (split_last_clean sep s Hsep) as Hclean.
  unfold Py.split in Hclean. rewrite Heq in Hclean.
  unfold Py.last_piece in Hclean. simpl in Hclean. congruence.
Qed.

End PySplit.

(** ** Reconciliation *)

Section Reconcile.
Import MenuGenerator MenuSpec.

Lemma scan_links_spec (visible : gset string) (cat : MenuCategory)
    (todo cleaned : list MenuLink) (removed : list RemovedItem) :
  is_Some (category cat) → forallb valid_link todo = true →
  scan_links visible cat todo cleaned removed =
    Returned (cleaned ++ List.filter (keep_link visible) todo,
              removed ++ map (removed_entry cat)
                (List.filter (fun link => negb (keep_link visible link)) todo)).
Proof.
  intros [c Hc]. revert cleaned removed.
  induction todo as [|link todo IH]; intros cleaned removed Hok.
  - simpl. by rewrite !app_nil_r.
  - apply andb_prop in Hok as [Hlink Hok].
    destruct link as [[l|] [h|] [t|]]; try done.
    cbn [scan_links List.filter href getitem mbind outcome_bind].
    set (link := {| label := Some l; href := Some h; term := Some t |}).
    assert (keep_link visible link =
              if Py.contains "/page/" h
              then bool_decide (page_id_of h ∈ visible) else true) as -> by done.
    subst link.
    destruct (Py.contains "/page/" h); [destruct (bool_decide _)|]; cbn [negb map].
    + rewrite IH by done. by rewrite <-app_assoc.
    + rewrite Hc. cbn [getitem label mbind outcome_bind]. rewrite IH by done.
      rewrite <-app_assoc. unfold removed_entry at 2. by rewrite Hc.
    + rewrite IH by done. by rewrite <-app_assoc.
Qed.

Lemma scan_categories_spec (visible : gset string)
    (todo cleaned : list MenuCategory) (removed : list RemovedItem) :
  valid_menu todo = true →
  scan_categories visible todo cleaned removed =
    Returned (cleaned ++ reconciled visible todo,
              removed ++ removed_report visible todo).
Proof.
  revert cleaned removed.
  induction todo as [|cat todo IH]; intros cleaned removed Hok.
  - simpl. by rewrite !app_nil_r.
  - apply andb_prop in Hok as [Hcat Hok].
    unfold valid_category in Hcat.
    destruct (category cat) as [c|] eqn:Hc; [|done].
    destruct (color cat) as [k|] eqn:Hk; [|done].
    destruct (links cat) as [ls|] eqn:Hls; [|done].
    cbn [scan_categories]. rewrite Hls. cbn [getitem mbind outcome_bind].
    rewrite scan_links_spec by (by rewrite ?Hc). cbn [app].
    unfold reconciled, removed_report. cbn [omap list_omap map concat].
    fold (reconciled visible todo). fold (removed_report visible todo).
    unfold surviving at 1, removed_of at 1, kept_links, links_of. rewrite Hls.
    cbn [get_default].
    destruct (List.filter (keep_link visible) ls) as [|l0 ls0];
      cbn [mbind outcome_bind]; rewrite IH by done; by rewrite <-!app_assoc.
Qed.

(** On a well-formed tree the two loops return the reconciled tree and the
    removed-items report. *)
Lemma reconcile_returns (visible : gset string) (menu : list MenuCategory) :
  valid_menu menu = true →
  reconcile visible menu =
    Returned (reconciled visible menu, removed_report visible menu).
Proof. intros Hok. unfold reconcile. by rewrite scan_categories_spec. Qed.

End Reconcile.

Section ReconcileClaims.
Import MenuGenerator MenuSpec.

(** The extracted page key is what follows a ['/page/'] in the href, and no
    further ['/page/'] occurs inside it. *)
Lemma page_id_of_after_marker (h : string) :
  Py.contains "/page/" h = true →
  (∃ pre, h = pre +:+ "/page/" +:+ page_id_of h)
  ∧ Py.contains "/page/" (page_id_of h) = false.
Proof.
  intros Hc. split.
  - by apply split_last_suffix.
  - by apply split_last_clean.
Qed.

(** An href without the marker is its own last piece. *)
Lemma page_id_of_no_marker (h : string) :
  Py.contains "/page/" h = false → page_id_of h = h.
Proof. intros Hc. unfold page_id_of. by rewrite split_no_sep. Qed.

Lemma keep_link_spec (visible : gset string) (link : MenuLink) :
  keep_link visible link = true ↔
  (has_page_key link = true → page_key link ∈ visible).
Proof.
  unfold keep_link. destruct (has_page_key link).
  - rewrite bool_decide_eq_true. naive_solver.
  - naive_solver.
Qed.

(** The surviving categories are the categories that keep a link, each with
    its kept links. *)
Lemma reconciled_map_filter (visible : gset string) (menu : list MenuCategory) :
  reconciled visible menu =
    map (fun cat => with_links cat (kept_links visible cat))
        (List.filter (keeps_some visible) menu).
Proof.
  unfold reconciled. induction menu as [|cat menu IH]; [done|].
  cbn [omap list_omap List.filter]. fold (omap (surviving visible) menu).
  unfold surviving at 1, keeps_some at 1.
  destruct (kept_links visible cat) as [|l ls] eqn:Hk; cbn [map];
    rewrite ?Hk; f_equal; apply IH.
Qed.

Lemma reconciled_has_links (visible : gset string) (menu : list MenuCategory) :
  Forall (fun cat => has_links cat = true) (reconciled visible menu).
Proof.
  unfold reconciled. induction menu as [|cat menu IH]; [by constructor|].
  cbn [omap list_omap]. fold (omap (surviving visible) menu).
  unfold surviving at 1.
  destruct (kept_links visible cat) as [|l ls]; [done|]. by constructor.
Qed.

(** The surviving categories, seen without [with_links]: one output
    category for each input category that keeps a link, in the input order,
    with the name and colour of the input category and, as its links, the
    links of the input category that pass the keep rule. *)
Lemma reconciled_is_reconciliation (visible : gset string) (menu : list MenuCategory) :
  KeySpec.reconciliation_of visible menu (reconciled visible menu).
Proof.
  unfold KeySpec.reconciliation_of. rewrite reconciled_map_filter.
  induction (List.filter (keeps_some visible) menu) as [|cat cats IH];
    cbn [map]; constructor; [|exact IH].
  unfold with_links, kept_links. cbn [category color links]. done.
Qed.

(** C2. For every well-formed menu tree and every visible page set, the
    empty one included, reconciliation returns a tree in which every
    category has at least one link: the output consists of exactly the
    categories that keep a link, so a category whose filtered link list is
    empty, one without links to begin with included, is not in it. *)
Theorem reconcile_no_empty_category (visible : gset string) (menu : list MenuCategory) :
  valid_menu menu = true →
  ∃ cleaned_menu removed_items,
    reconcile visible menu = Returned (cleaned_menu, removed_items)
    ∧ Forall (fun cat => has_links cat = true) cleaned_menu
    ∧ cleaned_menu =
        map (fun cat => with_links cat (kept_links visible cat))
            (List.filter (keeps_some visible) menu)
    ∧ (∀ cat, keeps_some visible cat = false ↔ kept_links visible cat = []).
Proof.
  intros Hok. exists (reconciled visible menu), (removed_report visible menu).
  split; [by apply reconcile_returns|].
  split; [apply reconciled_has_links|].
  split; [apply reconciled_map_filter|].
  intros cat. unfold keeps_some. by destruct (kept_links visible cat).
Qed.

Lemma reconcile_no_empty_category_witness :
  valid_menu Examples.weather_menu = true ∧
  ∃ cleaned_menu removed_items,
    reconcile ∅ Examples.weather_menu = Returned (cleaned_menu, removed_items)
    ∧ Forall (fun cat => has_links cat = true) cleaned_menu
    ∧ cleaned_menu =
        map (fun cat => with_links cat (kept_links ∅ cat))
            (List.filter (keeps_some ∅) Examples.weather_menu)
    ∧ (∀ cat, keeps_some ∅ cat = false ↔ kept_links ∅ cat = []).
Proof.
  split; [reflexivity|].
  apply (reconcile_no_empty_category ∅ Examples.weather_menu). reflexivity.
Defined.

Lemma filter_all {A} (f : A → bool) (l : list A) :
  forallb f l = true → List.filter f l = l.
Proof.
  induction l as [|x l IH]; [done|]. simpl.
  intros [Hx Hl]%andb_prop. rewrite Hx. by rewrite IH.
Qed.

Lemma filter_none {A} (f : A → bool) (l : list A) :
  forallb f l = true → List.filter (fun x => negb (f x)) l = [].
Proof.
  induction l as [|x l IH]; [done|]. simpl.
  intros [Hx Hl]%andb_prop. rewrite Hx. by apply IH.
Qed.

Lemma with_links_same (cat : MenuCategory) (ls : list MenuLink) :
  links cat = Some ls → with_links cat ls = cat.
Proof. destruct cat as [c k l]. simpl. by intros ->. Qed.

Lemma reconciled_clean (visible : gset string) (menu : list MenuCategory) :
  clean visible menu = true → forallb has_links menu = true →
  reconciled visible menu = menu ∧ removed_report visible menu = [].
Proof.
  unfold reconciled, removed_report.
  induction menu as [|cat menu IH]; [done|].
  intros [Hcat Hclean]%andb_prop [Hne Hall]%andb_prop.
  destruct (IH Hclean Hall) as [IH1 IH2].
  cbn [omap list_omap map List.concat]. fold (omap (surviving visible) menu).
  rewrite IH1, IH2. unfold surviving, removed_of, kept_links.
  rewrite filter_all, filter_none by done.
  unfold has_links in Hne. unfold links_of.
  destruct (links cat) as [[|l ls]|] eqn:Hls; try done.
  cbn [get_default map app]. by rewrite with_links_same.
Qed.

(** C3 (amended). Reconciliation leaves a clean tree as it is: for every
    well-formed menu tree in which every category has at least one link and
    every link with a page key refers to a member of the visible set,
    reconciling against that set returns the input tree and an empty
    removed-items report. *)
Theorem reconcile_clean_is_identity (visible : gset string) (menu : list MenuCategory) :
  valid_menu menu = true →
  clean visible menu = true →
  forallb has_links menu = true →
  reconcile visible menu = Returned (menu, []).
Proof.
  intros Hok Hclean Hne. rewrite reconcile_returns by done.
  by destruct (reconciled_clean visible menu Hclean Hne) as [-> ->].
Qed.

Lemma reconcile_clean_is_identity_witness :
  valid_menu Examples.weather_clean_menu = true
  ∧ clean Examples.weather_visible Examples.weather_clean_menu = true
  ∧ forallb has_links Examples.weather_clean_menu = true
  ∧ reconcile Examples.weather_visible Examples.weather_clean_menu =
      Returned (Examples.weather_clean_menu, []).
Proof.
  split; [reflexivity|]. split; [reflexivity|]. split; [reflexivity|].
  apply (reconcile_clean_is_identity Examples.weather_visible
           Examples.weather_clean_menu); reflexivity.
Defined.

(** C3 as stated fails: a well-formed tree whose only category has no link
    is clean for every visible set, yet reconciliation returns the empty
    tree, not the input. *)
Lemma reconcile_clean_drops_empty_category :
  valid_menu Examples.empty_shell_menu = true
  ∧ clean ∅ Examples.empty_shell_menu = true
  ∧ reconcile ∅ Examples.empty_shell_menu = Returned ([], [])
  ∧ reconcile ∅ Examples.empty_shell_menu ≠ Returned (Examples.empty_shell_menu, []).
Proof. repeat split; done. Qed.

Lemma forallb_filter_same {A} (f : A → bool) (l : list A) :
  forallb f (List.filter f l) = true.
Proof.
  induction l as [|x l IH]; [done|]. simpl.
  destruct (f x) eqn:Hx; [|done]. simpl. by rewrite Hx.
Qed.

Lemma forallb_filter_mono {A} (f g : A → bool) (l : list A) :
  forallb g l = true → forallb g (List.filter f l) = true.
Proof.
  induction l as [|x l IH]; [done|]. simpl.
  intros [Hx Hl]%andb_prop. destruct (f x); [|by apply IH].
  simpl. rewrite Hx. by apply IH.
Qed.

Lemma surviving_valid_clean (visible : gset string) (cat cat' : MenuCategory) :
  valid_category cat = true → surviving visible cat = Some cat' →
  valid_category cat' = true
  ∧ forallb (keep_link visible) (links_of cat') = true
  ∧ has_links cat' = true.
Proof.
  unfold surviving, kept_links, links_of, valid_category.
  destruct (category cat) as [c|] eqn:Hc; [|done].
  destruct (color cat) as [k|] eqn:Hk; [|done].
  destruct (links cat) as [ls|] eqn:Hls; [|done]. cbn [get_default].
  intros Hok.
  destruct (List.filter (keep_link visible) ls) as [|l0 ls0] eqn:Hf; [done|].
  intros [= <-]. unfold with_links, has_links. cbn [category color links get_default].
  rewrite Hc, Hk, <-Hf.
  rewrite forallb_filter_same, forallb_filter_mono by done. by rewrite ?Hf.
Qed.

Lemma reconciled_valid_clean (visible : gset string) (menu : list MenuCategory) :
  valid_menu menu = true →
  valid_menu (reconciled visible menu) = true
  ∧ clean visible (reconciled visible menu) = true
  ∧ forallb has_links (reconciled visible menu) = true.
Proof.
  unfold reconciled. induction menu as [|cat menu IH]; [done|].
  intros [Hcat Hok]%andb_prop. destruct (IH Hok) as (IH1 & IH2 & IH3).
  cbn [omap list_omap]. fold (omap (surviving visible) menu).
  destruct (surviving visible cat) as [cat'|] eqn:Hs; [|done].
  destruct (surviving_valid_clean visible cat cat' Hcat Hs) as (H1 & H2 & H3).
  cbn [valid_menu clean forallb].
  fold (valid_menu (omap (surviving visible) menu)).
  fold (clean visible (omap (surviving visible) menu)).
  by rewrite H1, H2, H3, IH1, IH2, IH3.
Qed.

(** Reconciling a reconciled tree changes nothing and removes nothing. *)
Lemma reconcile_idempotent (visible : gset string) (menu : list MenuCategory) :
  valid_menu menu = true →
  reconcile visible (reconciled visible menu) =
    Returned (reconciled visible menu, []).
Proof.
  intros Hok. destruct (reconciled_valid_clean visible menu Hok) as (H1 & H2 & H3).
  rewrite reconcile_returns by done.
  by destruct (reconciled_clean visible _ H2 H3) as [-> ->].
Qed.

End ReconcileClaims.

(** ** Classification *)

Section Classifier.
Import PageVisibilityDetector.

(** The loop of [get_visible_pages] splits the pages by [should_hide_page]. *)
Lemma classify_pages_filter (pages : gmap string PageData) :
  classify_pages pages =
    (filter (fun kv => ¬ should_hide_page kv.1 kv.2 = true) pages,
     filter (fun kv => should_hide_page kv.1 kv.2 = true) pages).
Proof.
  unfold classify_pages.
  apply (map_fold_weak_ind (fun r m =>
    r = (filter (fun kv => ¬ should_hide_page kv.1 kv.2 = true) m,
         filter (fun kv => should_hide_page kv.1 kv.2 = true) m))).
  - by rewrite !map_filter_empty.
  - intros i x m r Hi ->. unfold classify_step.
    destruct (should_hide_page i x) eqn:Hhide; f_equal.
    + rewrite map_filter_insert_not'; [done|simpl; tauto|].
      intros y Hy. congruence.
    + by rewrite map_filter_insert_True.
    + rewrite map_filter_insert_True; [done|]. simpl. congruence.
    + rewrite map_filter_insert_not'; [done|simpl; congruence|].
      intros y Hy. congruence.
Qed.

(** C5. For every fetched page collection the classifier's partition is
    total and disjoint: the sizes of the visible and the hidden subset add
    up to the number of pages, the two subsets share no key, and every page
    is in exactly one of them, the hidden one iff [should_hide_page] says
    so. *)
Theorem classify_pages_partition (pages : gmap string PageData) :
  size (classify_pages pages).1 + size (classify_pages pages).2 = size pages
  ∧ dom (classify_pages pages).1 ## dom (classify_pages pages).2
  ∧ dom (classify_pages pages).1 ∪ dom (classify_pages pages).2 = dom pages
  ∧ (∀ page_id page_data, pages !! page_id = Some page_data →
       if should_hide_page page_id page_data
       then (classify_pages pages).2 !! page_id = Some page_data
            ∧ (classify_pages pages).1 !! page_id = None
       else (classify_pages pages).1 !! page_id = Some page_data
            ∧ (classify_pages pages).2 !! page_id = None).
Proof.
  rewrite classify_pages_filter. cbn [fst snd].
  pose proof (map_disjoint_filter_complement
    (fun kv : string * PageData => should_hide_page kv.1 kv.2 = true) pages) as Hdisj.
  pose proof (map_filter_union_complement
    (fun kv : string * PageData => should_hide_page kv.1 kv.2 = true) pages) as Hunion.
  cbv beta in Hdisj, Hunion.
  set (hide := fun kv : string * PageData => should_hide_page kv.1 kv.2 = true).
  set (hidden_pages := filter _ pages) in Hdisj, Hunion |- *.
  set (visible_pages := filter _ pages) in Hdisj, Hunion |- *.
  split; [|split; [|split]].
  - rewrite <-Hunion at 1. rewrite map_size_disj_union by done. lia.
  - apply map_disjoint_dom in Hdisj. set_solver.
  - rewrite <-Hunion at 1. rewrite dom_union_L. apply (comm_L (∪)).
  - intros page_id page_data Hin.
    destruct (should_hide_page page_id page_data) eqn:Hhide.
    + split.
      * apply map_lookup_filter_Some. by split.
      * apply map_lookup_filter_None. right. intros y Hy. simpl.
        intros Hn. apply Hn. congruence.
    + split.
      * apply map_lookup_filter_Some. split; [done|]. simpl. congruence.
      * apply map_lookup_filter_None. right. intros y Hy. simpl. congruence.
Qed.

(** On an answered request [get_visible_pages] returns the visible subset. *)
Lemma get_visible_pages_fetched (w : World) (experience_id : string)
    (token : option json) (pages : gmap string PageData) :
  get_arcgis_token w = Returned token →
  experience_item w experience_id token = Returned {| pages := Some pages |} →
  get_visible_pages w experience_id = Returned (classify_pages pages).1.
Proof.
  intros Ht He. unfold get_visible_pages. rewrite Ht. cbn [mbind outcome_bind].
  by rewrite He.
Qed.

(** The report pairs every hidden page with [get_hide_reason]. *)
Lemma hidden_report_lookup (hidden_pages : gmap string PageData) (page_id : string) :
  hidden_report hidden_pages !! page_id =
    (fun page_data => (get_default (label page_data) "Unknown",
                       get_hide_reason page_id page_data))
      <$> hidden_pages !! page_id.
Proof.
  unfold hidden_report. rewrite map_lookup_imap.
  by destruct (hidden_pages !! page_id).
Qed.

(** C4. First match wins: a page record with [visible == false] whose label
    contains "test" is hidden, and the reason reported for it is the one of
    rule 1, "Not visible", never "Test/development page". *)
Theorem invisible_test_page_not_visible (page_id : string) (page_data : PageData) :
  visible page_data = Some false →
  Py.contains "test" (Py.lower (get_default (label page_data) "")) = true →
  should_hide_page page_id page_data = true
  ∧ get_hide_reason page_id page_data = "Not visible"
  ∧ Py.lower (get_hide_reason page_id page_data) = "not visible"
  ∧ get_hide_reason page_id page_data ≠ "Test/development page".
Proof.
  intros Hvis _. unfold should_hide_page, get_hide_reason. by rewrite Hvis.
Qed.

Lemma invisible_test_page_not_visible_witness :
  visible Examples.invisible_test_page = Some false
  ∧ Py.contains "test"
      (Py.lower (get_default (label Examples.invisible_test_page) "")) = true
  ∧ should_hide_page "page_181" Examples.invisible_test_page = true
  ∧ get_hide_reason "page_181" Examples.invisible_test_page = "Not visible"
  ∧ Py.lower (get_hide_reason "page_181" Examples.invisible_test_page) = "not visible"
  ∧ get_hide_reason "page_181" Examples.invisible_test_page ≠ "Test/development page".
Proof.
  split; [reflexivity|]. split; [reflexivity|].
  apply (invisible_test_page_not_visible "page_181" Examples.invisible_test_page);
    reflexivity.
Defined.

(** C6 fails on the code: the page labelled "WIP Dashboard" passes rules 1
    to 3, is hidden by the under-construction rule of [should_hide_page],
    and [get_hide_reason] reports "Unknown reason" for it. *)
Theorem wip_page_reason_unknown :
  Py.any_in test_keywords (Py.lower "WIP Dashboard") = false
  ∧ Py.any_in construction_keywords (Py.lower "WIP Dashboard") = true
  ∧ should_hide_page "page_7" Examples.wip_page = true
  ∧ get_hide_reason "page_7" Examples.wip_page = "Unknown reason"
  ∧ hidden_report (classify_pages {[ "page_7" := Examples.wip_page ]}).2 !! "page_7"
    = Some ("WIP Dashboard", "Unknown reason").
Proof. repeat split; vm_compute; reflexivity. Qed.

(** [get_hide_reason] has four answers besides "Unknown reason"; none of
    them is an under-construction reason. *)
Lemma get_hide_reason_range (page_id : string) (page_data : PageData) :
  get_hide_reason page_id page_data ∈
    ["Not visible"; "Hidden from navigation"; "Test/development page";
     "Manual override"; "Unknown reason"].
Proof.
  unfold get_hide_reason.
  repeat match goal with |- context [if ?b then _ else _] => destruct b end;
    set_solver.
Qed.

(** A page that rules 1 to 3 let pass and the under-construction rule
    hides gets "Manual override" or "Unknown reason". *)
Lemma construction_page_reason (page_id : string) (page_data : PageData) :
  get_default (visible page_data) true = true →
  get_default (showInNav page_data) true = true →
  Py.any_in test_keywords (Py.lower (get_default (label page_data) "")) = false →
  Py.any_in construction_keywords (Py.lower (get_default (label page_data) "")) = true →
  should_hide_page page_id page_data = true
  ∧ (get_hide_reason page_id page_data = "Manual override"
     ∨ get_hide_reason page_id page_data = "Unknown reason").
Proof.
  intros Hv Hn Ht Hc. unfold should_hide_page, get_hide_reason.
  rewrite Hv, Hn, Ht, Hc. cbn [negb]. split; [done|].
  unfold test_keywords, Py.any_in in Ht. cbn [existsb] in Ht.
  apply orb_false_elim in Ht as [H1 Ht]. apply orb_false_elim in Ht as [H2 Ht].
  apply orb_false_elim in Ht as [H3 _].
  unfold Py.any_in. cbn [existsb]. rewrite H1, H2, H3. cbn [orb].
  destruct (bool_decide _); auto.
Qed.



(** The exceptions of token acquisition are those of its two calls. *)
Lemma get_arcgis_token_raises (w : World) (e : exn) :
  get_arcgis_token w = Raised e ↔
  load_credentials w = Raised e
  ∨ ∃ creds, load_credentials w = Returned creds ∧ token_exchange w creds = Raised e.
Proof.
  unfold get_arcgis_token.
  destruct (load_credentials w) as [creds|e1] eqn:Hc; cbn [mbind outcome_bind].
  - destruct (token_exchange w creds) as [result|e2] eqn:Hr; cbn [mbind outcome_bind].
    + split; [done|]. intros [?|(creds' & [= <-] & ?)]; congruence.
    + split; [intros [= <-]; right; eauto|].
      intros [?|(creds' & [= <-] & ?)]; congruence.
  - split; [intros [= <-]; by left|]. intros [?|(creds' & ? & ?)]; congruence.
Qed.


End Classifier.

(** ** [validate_menu_visibility] as a whole *)

Section ValidateMenuVisibility.
Import MenuGenerator MenuSpec.

(** A category without [links] stops the loops with an exception, unless
    an earlier category or link already did. *)
Lemma scan_categories_lacks_links (visible : gset string)
    (todo cleaned : list MenuCategory) (removed : list RemovedItem) :
  lacks_links todo = true →
  ∃ e, scan_categories visible todo cleaned removed = Raised e.
Proof.
  revert cleaned removed.
  induction todo as [|cat todo IH]; intros cleaned removed Hlacks; [done|].
  cbn [lacks_links existsb] in Hlacks. cbn [scan_categories].
  destruct (links cat) as [ls|] eqn:Hls; cbn [getitem mbind outcome_bind].
  - destruct (scan_links visible cat ls [] removed) as [[cleaned_links removed']|e];
      cbn [mbind outcome_bind]; [|by eauto].
    destruct cleaned_links; by apply IH.
  - by eauto.
Qed.

(** What [validate_menu_visibility] returns once the visible pages are in. *)
Lemma validate_menu_visibility_fetched (w : PageVisibilityDetector.World)
    (experience_id : option string) (menu_data : list MenuCategory)
    (visible_pages : gmap string PageVisibilityDetector.PageData) :
  Py.truthy experience_id = true →
  PageVisibilityDetector.get_visible_pages w (get_default experience_id "")
    = Returned visible_pages →
  validate_menu_visibility w experience_id menu_data =
    match reconcile (dom visible_pages) menu_data with
    | Returned (cleaned_menu, _) => Returned cleaned_menu
    | Raised _ => Returned menu_data
    end.
Proof.
  intros Hid Hfetch. unfold validate_menu_visibility. rewrite Hid, Hfetch.
  cbn [negb mbind outcome_bind].
  by destruct (reconcile (dom visible_pages) menu_data) as [[cleaned_menu removed]|e].
Qed.

(** A failed fetch, token acquisition included, leaves the menu as it is. *)
Lemma validate_menu_visibility_fetch_raised (w : PageVisibilityDetector.World)
    (experience_id : option string) (menu_data : list MenuCategory) (e : exn) :
  PageVisibilityDetector.get_visible_pages w (get_default experience_id "") = Raised e →
  validate_menu_visibility w experience_id menu_data = Returned menu_data.
Proof.
  intros Hfetch. unfold validate_menu_visibility. rewrite Hfetch.
  by destruct (negb (Py.truthy experience_id)).
Qed.

(** C7 (amended). [validate_menu_visibility] raises nothing, whatever the
    tree and whatever the platform answers.  When some category lacks a
    [links] sequence the [KeyError] is caught and the input tree is
    returned unchanged.  When no experience id is set, and when fetching
    the visible pages raises, the input tree is returned unchanged.  On a
    well-formed tree, with an experience id and the visible pages fetched,
    the tree reconciled against the fetched pages is returned: the
    categories that keep a link, in order, each with its name, its colour
    and its links that pass the keep rule. *)
Theorem validate_menu_visibility_never_raises (w : PageVisibilityDetector.World)
    (experience_id : option string) (menu_data : list MenuCategory) :
  ∃ out,
    validate_menu_visibility w experience_id menu_data = Returned out
    ∧ (lacks_links menu_data = true → out = menu_data)
    ∧ (Py.truthy experience_id = false → out = menu_data)
    ∧ (∀ e, PageVisibilityDetector.get_visible_pages w (get_default experience_id "")
              = Raised e →
            out = menu_data)
    ∧ (valid_menu menu_data = true →
       Py.truthy experience_id = true →
       ∀ visible_pages,
         PageVisibilityDetector.get_visible_pages w (get_default experience_id "")
           = Returned visible_pages →
         out = reconciled (dom visible_pages) menu_data
         ∧ KeySpec.reconciliation_of (dom visible_pages) menu_data out).
Proof.
  destruct (Py.truthy experience_id) eqn:Hid.
  - destruct (PageVisibilityDetector.get_visible_pages w (get_default experience_id ""))
      as [visible_pages|e] eqn:Hfetch.
    + rewrite (validate_menu_visibility_fetched _ _ _ _ Hid Hfetch).
      destruct (reconcile (dom visible_pages) menu_data)
        as [[cleaned_menu removed]|e] eqn:Hrec.
      * exists cleaned_menu. split; [done|]. split; [|split; [done|split; [done|]]].
        -- intros Hlacks.
           destruct (scan_categories_lacks_links (dom visible_pages) menu_data [] []
                       Hlacks) as [e He].
           unfold reconcile in Hrec. congruence.
        -- intros Hok _ visible_pages' [= <-].
           rewrite reconcile_returns in Hrec by done.
           injection Hrec as <- _.
           split; [done|apply reconciled_is_reconciliation].
      * exists menu_data. split; [done|]. split; [done|]. split; [done|].
        split; [done|].
        intros Hok _ visible_pages' [= <-].
        rewrite reconcile_returns in Hrec by done. discriminate.
    + rewrite (validate_menu_visibility_fetch_raised _ _ _ _ Hfetch).
      exists menu_data. split; [done|]. split; [done|]. split; [done|].
      split; [done|]. intros _ _ visible_pages' [=].
  - exists menu_data. unfold validate_menu_visibility. rewrite Hid.
    split; [done|]. split; [done|]. split; [done|]. split; [done|].
    intros _ [=].
Qed.

Lemma validate_menu_visibility_never_raises_witness :
  ∃ out,
    validate_menu_visibility (Examples.online (Some Examples.live_pages))
      (Some Examples.experience_id) Examples.weather_menu = Returned out
    ∧ (lacks_links Examples.weather_menu = true → out = Examples.weather_menu)
    ∧ (Py.truthy (Some Examples.experience_id) = false → out = Examples.weather_menu)
    ∧ (∀ e, PageVisibilityDetector.get_visible_pages
              (Examples.online (Some Examples.live_pages))
              (get_default (Some Examples.experience_id) "") = Raised e →
            out = Examples.weather_menu)
    ∧ (valid_menu Examples.weather_menu = true →
       Py.truthy (Some Examples.experience_id) = true →
       ∀ visible_pages,
         PageVisibilityDetector.get_visible_pages
           (Examples.online (Some Examples.live_pages))
           (get_default (Some Examples.experience_id) "") = Returned visible_pages →
         out = reconciled (dom visible_pages) Examples.weather_menu
         ∧ KeySpec.reconciliation_of (dom visible_pages) Examples.weather_menu out).
Proof.
  apply (validate_menu_visibility_never_raises
           (Examples.online (Some Examples.live_pages))
           (Some Examples.experience_id) Examples.weather_menu).
Defined.

(** C7 as stated fails: the tree below has a category without [links], the
    platform answers, and [validate_menu_visibility] returns the tree
    instead of raising. *)
Lemma missing_links_is_swallowed :
  lacks_links Examples.menu_without_links = true
  ∧ validate_menu_visibility (Examples.online (Some Examples.live_pages))
      (Some Examples.experience_id) Examples.menu_without_links
    = Returned Examples.menu_without_links
  ∧ ¬ ∃ e, validate_menu_visibility (Examples.online (Some Examples.live_pages))
             (Some Examples.experience_id) Examples.menu_without_links = Raised e.
Proof.
  assert (validate_menu_visibility (Examples.online (Some Examples.live_pages))
            (Some Examples.experience_id) Examples.menu_without_links
          = Returned Examples.menu_without_links) as Heq by (vm_compute; reflexivity).
  split; [reflexivity|]. split; [exact Heq|].
  intros [e He]. rewrite Heq in He. discriminate.
Qed.

(** Against the empty visible set only links without a page key are kept. *)
Lemma reconciled_empty_no_page_key (menu : list MenuCategory) :
  Forall (fun cat => Forall (fun link => has_page_key link = false) (links_of cat))
         (reconciled ∅ menu).
Proof.
  rewrite reconciled_map_filter. apply Forall_map, Forall_forall.
  intros cat _. unfold links_of, with_links, kept_links. cbn [links get_default].
  apply Forall_forall. intros link Hin.
  apply list_elem_of_In, filter_In in Hin as [_ Hkeep].
  unfold keep_link in Hkeep. destruct (has_page_key link); [|done].
  apply bool_decide_eq_true in Hkeep. set_solver.
Qed.

(** C10 (amended). When retrieving the page collection raises during
    [validate_menu_visibility], validation is given up and the input tree
    is returned unchanged, links with page keys included.  Only an answered
    request whose response lacks the page collection counts as zero pages:
    then the tree is reconciled against the empty set, which prunes every
    link with an embedded page key. *)
Theorem fetch_failure_keeps_menu (w : PageVisibilityDetector.World)
    (experience_id : option string) (menu_data : list MenuCategory) :
  Py.truthy experience_id = true →
  valid_menu menu_data = true →
  (∀ e, PageVisibilityDetector.get_visible_pages w (get_default experience_id "")
          = Raised e →
        validate_menu_visibility w experience_id menu_data = Returned menu_data)
  ∧ (∀ token,
       PageVisibilityDetector.get_arcgis_token w = Returned token →
       PageVisibilityDetector.experience_item w (get_default experience_id "") token
         = Returned {| PageVisibilityDetector.pages := None |} →
       validate_menu_visibility w experience_id menu_data
         = Returned (reconciled ∅ menu_data)
       ∧ Forall (fun cat =>
                   Forall (fun link => has_page_key link = false) (links_of cat))
                (reconciled ∅ menu_data)).
Proof.
  intros Hid Hok. split.
  - intros e. apply validate_menu_visibility_fetch_raised.
  - intros token Htoken Hitem. split; [|apply reconciled_empty_no_page_key].
    rewrite (validate_menu_visibility_fetched w experience_id menu_data ∅ Hid).
    + rewrite dom_empty_L. by rewrite reconcile_returns.
    + unfold PageVisibilityDetector.get_visible_pages. rewrite Htoken.
      cbn [mbind outcome_bind]. by rewrite Hitem.
Qed.

Lemma fetch_failure_keeps_menu_witness :
  Py.truthy (Some Examples.experience_id) = true
  ∧ valid_menu Examples.weather_menu = true
  ∧ PageVisibilityDetector.get_visible_pages Examples.fetch_fails
      (get_default (Some Examples.experience_id) "") = Raised RequestException
  ∧ validate_menu_visibility Examples.fetch_fails (Some Examples.experience_id)
      Examples.weather_menu = Returned Examples.weather_menu
  ∧ validate_menu_visibility (Examples.online None) (Some Examples.experience_id)
      Examples.weather_menu = Returned (reconciled ∅ Examples.weather_menu).
Proof.
  split; [reflexivity|]. split; [reflexivity|]. split; [reflexivity|]. split.
  - apply (proj1 (fetch_failure_keeps_menu Examples.fetch_fails
                    (Some Examples.experience_id) Examples.weather_menu
                    eq_refl eq_refl) RequestException).
    reflexivity.
  - apply (proj2 (fetch_failure_keeps_menu (Examples.online None)
                    (Some Examples.experience_id) Examples.weather_menu
                    eq_refl eq_refl) (Some (JStr "t0k3n"))); reflexivity.
Defined.

(** C10 as stated fails: the page request raises, and the link to page_96,
    which has an embedded page key, is still in the returned tree. *)
Lemma fetch_failure_prunes_nothing :
  PageVisibilityDetector.get_visible_pages Examples.fetch_fails Examples.experience_id
    = Raised RequestException
  ∧ validate_menu_visibility Examples.fetch_fails (Some Examples.experience_id)
      Examples.weather_menu = Returned Examples.weather_menu
  ∧ has_page_key (Examples.page_link "Fire Weather" "page_96") = true
  ∧ Exists (fun cat => Examples.page_link "Fire Weather" "page_96" ∈ links_of cat)
           Examples.weather_menu
  ∧ validate_menu_visibility Examples.fetch_fails (Some Examples.experience_id)
      Examples.weather_menu ≠ Returned (reconciled ∅ Examples.weather_menu).
Proof.
  split; [reflexivity|]. split; [reflexivity|]. split; [reflexivity|]. split.
  - apply Exists_cons_hd. unfold links_of. cbn. set_solver.
  - vm_compute. discriminate.
Qed.

End ValidateMenuVisibility.

(** ** Deployment *)

Section Deployment.
Import Deploy DeploySpec.

(** C9 (amended). The full deployment run returns one boolean, the logical
    AND of the validation gate and the two publish outcomes.  It tells
    "both succeeded" from the rest and nothing more; a VCS failure combined
    with an HTTP success returns [False] without raising. *)
Theorem full_deployment_is_conjunction (w : World) (commit_message : option string) :
  full_deployment w commit_message =
    validate_menu w && deploy_to_github w commit_message && deploy_to_pythonanywhere w
  ∧ (validate_menu w = true →
     (full_deployment w commit_message = true ↔
        publish_summary (deploy_to_github w commit_message)
                        (deploy_to_pythonanywhere w) = BothSucceeded)
     ∧ (deploy_to_github w commit_message = false →
        deploy_to_pythonanywhere w = true →
        full_deployment w commit_message = false)).
Proof.
  unfold full_deployment.
  destruct (validate_menu w), (deploy_to_github w commit_message),
    (deploy_to_pythonanywhere w); cbn; naive_solver.
Qed.

Lemma full_deployment_is_conjunction_witness :
  full_deployment Examples.vcs_failed_http_ok None =
    validate_menu Examples.vcs_failed_http_ok
    && deploy_to_github Examples.vcs_failed_http_ok None
    && deploy_to_pythonanywhere Examples.vcs_failed_http_ok
  ∧ (validate_menu Examples.vcs_failed_http_ok = true →
     (full_deployment Examples.vcs_failed_http_ok None = true ↔
        publish_summary (deploy_to_github Examples.vcs_failed_http_ok None)
                        (deploy_to_pythonanywhere Examples.vcs_failed_http_ok)
          = BothSucceeded)
     ∧ (deploy_to_github Examples.vcs_failed_http_ok None = false →
        deploy_to_pythonanywhere Examples.vcs_failed_http_ok = true →
        full_deployment Examples.vcs_failed_http_ok None = false)).
Proof. apply (full_deployment_is_conjunction Examples.vcs_failed_http_ok None). Defined.

(** C9 as stated fails: with the push rejected, a run whose HTTP publish
    succeeds and a run whose HTTP publish fails both return [False], so no
    reading of the returned value tells "exactly one failed" from "both
    failed". *)
Lemma full_deployment_conflates_failures :
  validate_menu Examples.vcs_failed_http_ok = true
  ∧ validate_menu Examples.both_failed = true
  ∧ publish_summary (deploy_to_github Examples.vcs_failed_http_ok None)
                    (deploy_to_pythonanywhere Examples.vcs_failed_http_ok) = OneFailed
  ∧ publish_summary (deploy_to_github Examples.both_failed None)
                    (deploy_to_pythonanywhere Examples.both_failed) = BothFailed
  ∧ full_deployment Examples.vcs_failed_http_ok None = false
  ∧ full_deployment Examples.both_failed None = false
  ∧ ¬ ∃ decode : bool → PublishSummary,
        ∀ w commit_message, validate_menu w = true →
          decode (full_deployment w commit_message) =
            publish_summary (deploy_to_github w commit_message)
                            (deploy_to_pythonanywhere w).
Proof.
  assert (full_deployment Examples.vcs_failed_http_ok None = false) as H1
    by (vm_compute; reflexivity).
  assert (full_deployment Examples.both_failed None = false) as H2
    by (vm_compute; reflexivity).
  assert (publish_summary (deploy_to_github Examples.vcs_failed_http_ok None)
            (deploy_to_pythonanywhere Examples.vcs_failed_http_ok) = OneFailed) as H3
    by (vm_compute; reflexivity).
  assert (publish_summary (deploy_to_github Examples.both_failed None)
            (deploy_to_pythonanywhere Examples.both_failed) = BothFailed) as H4
    by (vm_compute; reflexivity).
  assert (validate_menu Examples.vcs_failed_http_ok = true) as H5
    by (vm_compute; reflexivity).
  assert (validate_menu Examples.both_failed = true) as H6
    by (vm_compute; reflexivity).
  repeat (split; [done|]).
  intros [decode Hdecode].
  pose proof (Hdecode Examples.vcs_failed_http_ok None H5) as Ha.
  pose proof (Hdecode Examples.both_failed None H6) as Hb.
  rewrite H1, H3 in Ha. rewrite H2, H4 in Hb. congruence.
Qed.

End Deployment.

(** ** The scenarios of the specification, run on the embedding *)

Section Scenarios.
Import MenuGenerator MenuSpec.

(** Visible set {page_84, page_95}, one category linking to page_84,
    page_95 and page_96: the first two links stay, page_96 is reported. *)
Example scenario_one_link_removed :
  reconcile Examples.weather_visible Examples.weather_menu =
    Returned
      ([ {| category := Some "2 Weather"; color := Some "btn-blue";
            links := Some [Examples.page_link "Precipitation" "page_84";
                           Examples.page_link "Flood Prediction" "page_95"] |} ],
       [ {| removed_category := "2 Weather"; removed_label := "Fire Weather";
            removed_page_id := "page_96" |} ]).
Proof. vm_compute. reflexivity. Qed.

(** A category whose single link points to a page that is not visible
    leaves no category at all. *)
Example scenario_category_dropped :
  reconcile Examples.weather_visible
    [ {| category := Some "8 Regional Risk Tool"; color := Some "btn-black";
         links := Some [Examples.page_link "Regional Risk Tool" "page_99"] |} ]
  = Returned
      ([], [ {| removed_category := "8 Regional Risk Tool";
                removed_label := "Regional Risk Tool";
                removed_page_id := "page_99" |} ]).
Proof. vm_compute. reflexivity. Qed.

(** An href that ends in the marker has the empty page key. *)
Example page_id_of_trailing_marker :
  page_id_of "https://experience.arcgis.com/experience/abc/page/" = "".
Proof. vm_compute. reflexivity. Qed.

(** [split] cuts from the left without overlap: in ["/page/page/"] the
    second marker shares its first character with the first one, so the
    page key is ["page/"]. *)
Example page_id_of_overlapping_markers :
  Py.split "/page/" "/page/page/" = [""; "page/"]
  ∧ page_id_of "/page/page/" = "page/".
Proof. split; vm_compute; reflexivity. Qed.

(** The live pages of the example: the draft page is hidden, the other two
    are visible. *)
Example scenario_classification :
  dom (PageVisibilityDetector.classify_pages Examples.live_pages).1
    = Examples.weather_visible
  ∧ dom (PageVisibilityDetector.classify_pages Examples.live_pages).2
    = {[ "page_96" ]}.
Proof. split; vm_compute; reflexivity. Qed.

End Scenarios.

(** * Further properties of the code *)

(** ** The classifier *)

Section ClassifierRules.
Import PageVisibilityDetector.

Lemma lower_app (s t : string) : Py.lower (s +:+ t) = Py.lower s +:+ Py.lower t.
Proof.
  induction s as [|c s IH]; [done|].
  rewrite str_app_cons. simpl. by rewrite IH.
Qed.

Lemma any_in_true (keywords : list string) (keyword s : string) :
  keyword ∈ keywords → Py.contains keyword s = true → Py.any_in keywords s = true.
Proof.
  intros Hin Hc. unfold Py.any_in. apply existsb_exists.
  exists keyword. split; [by apply list_elem_of_In|done].
Qed.




(** A page record without a label is hidden exactly by rule 1, rule 2 or
    the manual list: no keyword rule matches the empty label. *)
Theorem unlabelled_page_hidden_iff (page_id : string) (page_data : PageData) :
  label page_data = None →
  should_hide_page page_id page_data = true ↔
    visible page_data = Some false
    ∨ showInNav page_data = Some false
    ∨ page_id ∈ hidden_page_ids.
Proof.
  intros Hlabel. unfold should_hide_page. rewrite Hlabel. cbn [get_default Py.lower].
  assert (Py.any_in test_keywords "" = false) as -> by reflexivity.
  assert (Py.any_in construction_keywords "" = false) as -> by reflexivity.
  assert (Py.any_in admin_keywords "" = false) as -> by reflexivity.
  destruct (visible page_data) as [[]|], (showInNav page_data) as [[]|];
    cbn [get_default negb]; try case_bool_decide; intuition congruence.
Qed.

Lemma unlabelled_page_hidden_iff_witness :
  label {| label := None; visible := None; showInNav := Some false |} = None
  ∧ (should_hide_page "page_9"
       {| label := None; visible := None; showInNav := Some false |} = true ↔
     visible {| label := None; visible := None; showInNav := Some false |} = Some false
     ∨ showInNav {| label := None; visible := None; showInNav := Some false |}
         = Some false
     ∨ "page_9" ∈ hidden_page_ids).
Proof.
  split; [reflexivity|].
  apply (unlabelled_page_hidden_iff "page_9"
           {| label := None; visible := None; showInNav := Some false |}).
  reflexivity.
Defined.

(** A keyword of one of the three keyword rules hides the page wherever it
    stands inside the label and however it is capitalised. *)
Theorem keyword_anywhere_hides (page_id : string) (page_data : PageData)
    (keyword spelled pre post : string) :
  keyword ∈ test_keywords ++ construction_keywords ++ admin_keywords →
  Py.lower spelled = keyword →
  label page_data = Some (pre +:+ spelled +:+ post) →
  should_hide_page page_id page_data = true.
Proof.
  intros Hkw Hspelled Hlabel. unfold should_hide_page. rewrite Hlabel.
  cbn [get_default]. rewrite !lower_app, Hspelled.
  set (page_label := Py.lower pre +:+ keyword +:+ Py.lower post).
  assert (Py.contains keyword page_label = true) as Hc.
  { apply contains_iff. by exists (Py.lower pre), (Py.lower post). }
  destruct (negb (get_default (visible page_data) true)); [done|].
  destruct (negb (get_default (showInNav page_data) true)); [done|].
  apply elem_of_app in Hkw as [Hkw|Hkw]; [|apply elem_of_app in Hkw as [Hkw|Hkw]].
  - by rewrite (any_in_true _ _ _ Hkw Hc).
  - rewrite (any_in_true _ _ _ Hkw Hc). by destruct (Py.any_in test_keywords page_label).
  - rewrite (any_in_true _ _ _ Hkw Hc).
    by destruct (Py.any_in test_keywords page_label),
      (Py.any_in construction_keywords page_label).
Qed.

Lemma keyword_anywhere_hides_witness :
  "old" ∈ test_keywords ++ construction_keywords ++ admin_keywords
  ∧ Py.lower "OLD" = "old"
  ∧ label (Examples.page "GOLD Team") = Some ("G" +:+ "OLD" +:+ " Team")
  ∧ should_hide_page "page_12" (Examples.page "GOLD Team") = true.
Proof.
  assert ("old" ∈ test_keywords ++ construction_keywords ++ admin_keywords) as Hkw
    by (vm_compute; set_solver).
  split; [exact Hkw|]. split; [reflexivity|]. split; [reflexivity|].
  exact (keyword_anywhere_hides "page_12" (Examples.page "GOLD Team")
           "old" "OLD" "G" " Team" Hkw eq_refl eq_refl).
Defined.

(** What [get_visible_pages] returns holds only pages of the fetched
    collection, with their data, that no rule hides: none is switched off,
    none is kept out of the navigation, none is on the manual list. *)
Theorem visible_pages_pass_every_rule (w : World) (experience_id : string)
    (visible_pages : gmap string PageData) (page_id : string) (page_data : PageData) :
  get_visible_pages w experience_id = Returned visible_pages →
  visible_pages !! page_id = Some page_data →
  (∃ token fetched,
      get_arcgis_token w = Returned token
      ∧ experience_item w experience_id token = Returned {| pages := Some fetched |}
      ∧ fetched !! page_id = Some page_data)
  ∧ should_hide_page page_id page_data = false
  ∧ visible page_data ≠ Some false
  ∧ showInNav page_data ≠ Some false
  ∧ page_id ∉ hidden_page_ids.
Proof.
  unfold get_visible_pages.
  destruct (get_arcgis_token w) as [token|e] eqn:Htoken; [|done].
  cbn [mbind outcome_bind].
  destruct (experience_item w experience_id token) as [[[fetched|]]|e] eqn:Hitem;
    cbn [mbind outcome_bind pages]; [| |done].
  - intros [= <-]. rewrite classify_pages_filter. cbn [fst].
    intros [Hin Hvis]%map_lookup_filter_Some. cbn [fst snd] in Hvis.
    apply not_true_is_false in Hvis.
    split; [by eauto|]. split; [done|].
    unfold should_hide_page in Hvis.
    destruct (visible page_data) as [[]|], (showInNav page_data) as [[]|];
      cbn [get_default negb] in Hvis; try done.
    all: repeat split; try done.
    all: repeat match type of Hvis with
           | (if ?b then _ else _) = _ => destruct b eqn:?; try done
         end.
    all: match goal with
         | H : bool_decide _ = false |- _ => by apply bool_decide_eq_false in H
         end.
  - intros [= <-] Hin. by rewrite lookup_empty in Hin.
Qed.

Lemma visible_pages_pass_every_rule_witness :
  get_visible_pages (Examples.online (Some Examples.live_pages)) Examples.experience_id
    = Returned (classify_pages Examples.live_pages).1
  ∧ (classify_pages Examples.live_pages).1 !! "page_84"
    = Some (Examples.page "Precipitation")
  ∧ should_hide_page "page_84" (Examples.page "Precipitation") = false
  ∧ "page_84" ∉ hidden_page_ids.
Proof.
  assert (get_visible_pages (Examples.online (Some Examples.live_pages))
            Examples.experience_id
          = Returned (classify_pages Examples.live_pages).1) as H1 by reflexivity.
  assert ((classify_pages Examples.live_pages).1 !! "page_84"
          = Some (Examples.page "Precipitation")) as H2 by (vm_compute; reflexivity).
  split; [exact H1|]. split; [exact H2|].
  pose proof (visible_pages_pass_every_rule _ _ _ _ _ H1 H2) as (_ & H3 & _ & _ & H4).
  split; [exact H3|exact H4].
Defined.

End ClassifierRules.

(** ** Reconciliation on any tree *)

Section ReconcileAnyTree.
Import MenuGenerator MenuSpec MenuFacts.

Lemma keep_link_href (visible : gset string) (link : MenuLink) (h : string) :
  href link = Some h →
  keep_link visible link =
    if Py.contains "/page/" h then bool_decide (page_id_of h ∈ visible) else true.
Proof.
  intros Hh. unfold keep_link, has_page_key, page_key, href_of. by rewrite Hh.
Qed.

(** Whenever the inner loop returns, well-formed tree or not, it has kept
    the links that pass the keep rule and reported the others. *)
Lemma scan_links_returned (visible : gset string) (cat : MenuCategory)
    (todo cleaned cl : list MenuLink) (removed rm : list RemovedItem) :
  scan_links visible cat todo cleaned removed = Returned (cl, rm) →
  cl = cleaned ++ List.filter (keep_link visible) todo
  ∧ rm = removed ++ map (removed_entry cat)
           (List.filter (fun link => negb (keep_link visible link)) todo).
Proof.
  revert cleaned removed.
  induction todo as [|link todo IH]; intros cleaned removed.
  - simpl. intros [= <- <-]. by rewrite !app_nil_r.
  - cbn [scan_links List.filter].
    destruct (href link) as [h|] eqn:Hh; cbn [getitem mbind outcome_bind]; [|done].
    rewrite (keep_link_href visible link h Hh).
    destruct (Py.contains "/page/" h) eqn:Hc; [destruct (bool_decide _) eqn:Hv|];
      cbn [negb map].
    + intros [-> ->]%IH. by rewrite <-app_assoc.
    + destruct (category cat) as [c|] eqn:Hcat; cbn [getitem mbind outcome_bind];
        [|done].
      destruct (label link) as [l|] eqn:Hl; cbn [getitem mbind outcome_bind];
        [|done].
      intros [-> ->]%IH. rewrite <-app_assoc. split; [done|].
      unfold removed_entry at 2, page_key, href_of. by rewrite Hcat, Hl, Hh.
    + intros [-> ->]%IH. by rewrite <-app_assoc.
Qed.

Lemma scan_categories_returned (visible : gset string)
    (todo cleaned cm : list MenuCategory) (removed rm : list RemovedItem) :
  scan_categories visible todo cleaned removed = Returned (cm, rm) →
  cm = cleaned ++ reconciled visible todo
  ∧ rm = removed ++ removed_report visible todo.
Proof.
  revert cleaned removed.
  induction todo as [|cat todo IH]; intros cleaned removed.
  - simpl. intros [= <- <-]. by rewrite !app_nil_r.
  - cbn [scan_categories].
    destruct (links cat) as [ls|] eqn:Hls; cbn [getitem mbind outcome_bind]; [|done].
    destruct (scan_links visible cat ls [] removed) as [[cl rm']|e] eqn:Hscan;
      cbn [mbind outcome_bind]; [|done].
    apply scan_links_returned in Hscan as [-> ->]. cbn [app].
    unfold reconciled, removed_report. cbn [omap list_omap map List.concat].
    fold (reconciled visible todo). fold (removed_report visible todo).
    unfold surviving at 1, removed_of at 1, kept_links, links_of. rewrite Hls.
    cbn [get_default].
    destruct (List.filter (keep_link visible) ls) as [|l0 ls0];
      intros [-> ->]%IH; by rewrite <-!app_assoc.
Qed.

(** Whenever reconciliation returns, it returns the reconciled tree and
    the removed-items report. *)
Lemma reconcile_returned (visible : gset string)
    (menu cm : list MenuCategory) (rm : list RemovedItem) :
  reconcile visible menu = Returned (cm, rm) →
  cm = reconciled visible menu ∧ rm = removed_report visible menu.
Proof. unfold reconcile. by intros [-> ->]%scan_categories_returned. Qed.

Lemma filter_length_split {A} (f : A → bool) (l : list A) :
  length (List.filter f l) + length (List.filter (fun x => negb (f x)) l) = length l.
Proof.
  induction l as [|x l IH]; [done|]. simpl. destruct (f x); simpl; lia.
Qed.

Lemma count_links_cons (cat : MenuCategory) (menu : list MenuCategory) :
  count_links (cat :: menu) = length (links_of cat) + count_links menu.
Proof. done. Qed.

Lemma count_links_reconciled (visible : gset string) (menu : list MenuCategory) :
  count_links (reconciled visible menu) + length (removed_report visible menu)
    = count_links menu.
Proof.
  unfold reconciled, removed_report. induction menu as [|cat menu IH]; [done|].
  cbn [omap list_omap map List.concat]. fold (omap (surviving visible) menu).
  set (rest := omap (surviving visible) menu) in *.
  set (report := List.concat (map (removed_of visible) menu)) in *.
  rewrite length_app, count_links_cons. unfold removed_of.
  rewrite length_map.
  pose proof (filter_length_split (keep_link visible) (links_of cat)) as Hsplit.
  unfold surviving, kept_links.
  destruct (List.filter (keep_link visible) (links_of cat)) as [|l0 ls0] eqn:Hf.
  - simpl in Hsplit. lia.
  - rewrite count_links_cons. unfold links_of at 1, with_links.
    cbn [links get_default]. lia.
Qed.

(** No link is lost silently: whenever reconciliation returns, the links
    of the returned tree and the entries of the removed-items report add up
    to the links of the input tree. *)
Theorem reconcile_accounts_for_every_link (visible : gset string)
    (menu cleaned_menu : list MenuCategory) (removed_items : list RemovedItem) :
  reconcile visible menu = Returned (cleaned_menu, removed_items) →
  count_links cleaned_menu + length removed_items = count_links menu.
Proof.
  intros [-> ->]%reconcile_returned. apply count_links_reconciled.
Qed.

Lemma reconcile_accounts_for_every_link_witness :
  reconcile Examples.weather_visible Examples.weather_menu
    = Returned (reconciled Examples.weather_visible Examples.weather_menu,
                removed_report Examples.weather_visible Examples.weather_menu)
  ∧ count_links (reconciled Examples.weather_visible Examples.weather_menu)
    + length (removed_report Examples.weather_visible Examples.weather_menu)
    = count_links Examples.weather_menu.
Proof.
  assert (reconcile Examples.weather_visible Examples.weather_menu
          = Returned (reconciled Examples.weather_visible Examples.weather_menu,
                      removed_report Examples.weather_visible Examples.weather_menu))
    as Hrec by (vm_compute; reflexivity).
  split; [exact Hrec|].
  exact (reconcile_accounts_for_every_link _ _ _ _ Hrec).
Defined.

Lemma filter_sublist {A} (f : A → bool) (l : list A) :
  List.filter f l `sublist_of` l.
Proof.
  induction l as [|x l IH]; [done|]. simpl.
  destruct (f x); [by apply sublist_skip|by apply sublist_cons].
Qed.

Lemma elem_of_reconciled (visible : gset string) (menu : list MenuCategory)
    (cat' : MenuCategory) :
  cat' ∈ reconciled visible menu ↔
  ∃ cat, cat ∈ menu ∧ kept_links visible cat ≠ []
         ∧ cat' = with_links cat (kept_links visible cat).
Proof.
  unfold reconciled. rewrite list_elem_of_omap. unfold surviving.
  split; intros (cat & Hin & Hs); exists cat.
  - destruct (kept_links visible cat) as [|l ls]; [done|]. naive_solver.
  - destruct Hs as [Hne ->]. split; [done|].
    by destruct (kept_links visible cat).
Qed.

(** The two ways [validate_menu_visibility] ends: with the input tree, or
    with the tree reconciled against the fetched pages. *)
Lemma validate_menu_visibility_cases (w : PageVisibilityDetector.World)
    (experience_id : option string) (menu_data : list MenuCategory) :
  validate_menu_visibility w experience_id menu_data = Returned menu_data
  ∨ ∃ visible_pages,
      Py.truthy experience_id = true
      ∧ PageVisibilityDetector.get_visible_pages w (get_default experience_id "")
          = Returned visible_pages
      ∧ reconcile (dom visible_pages) menu_data
          = Returned (reconciled (dom visible_pages) menu_data,
                      removed_report (dom visible_pages) menu_data)
      ∧ validate_menu_visibility w experience_id menu_data
          = Returned (reconciled (dom visible_pages) menu_data).
Proof.
  destruct (Py.truthy experience_id) eqn:Hid.
  - destruct (PageVisibilityDetector.get_visible_pages w (get_default experience_id ""))
      as [visible_pages|e] eqn:Hfetch.
    + rewrite (validate_menu_visibility_fetched _ _ _ _ Hid Hfetch).
      destruct (reconcile (dom visible_pages) menu_data) as [[cm rm]|e] eqn:Hrec;
        [|by left].
      destruct (reconcile_returned _ _ _ _ Hrec) as [-> ->].
      right. by exists visible_pages.
    + left. by eapply validate_menu_visibility_fetch_raised.
  - left. unfold validate_menu_visibility. by rewrite Hid.
Qed.

(** [validate_menu_visibility] only takes away: for every tree and every
    answer of the platform, the returned categories correspond one to one,
    in order, to a subsequence of the input categories, so no category is
    added, repeated or moved, and each returned category has the name and
    colour of its input category and, as its links, a subsequence of that
    category's links. *)
Theorem validate_menu_visibility_only_removes (w : PageVisibilityDetector.World)
    (experience_id : option string) (menu_data : list MenuCategory) :
  ∃ out kept,
    validate_menu_visibility w experience_id menu_data = Returned out
    ∧ kept `sublist_of` menu_data
    ∧ Forall2 (fun out_cat cat =>
                 category out_cat = category cat
                 ∧ color out_cat = color cat
                 ∧ links_of out_cat `sublist_of` links_of cat)
              out kept.
Proof.
  destruct (validate_menu_visibility_cases w experience_id menu_data)
    as [->|(visible_pages & _ & _ & _ & ->)].
  - exists menu_data, menu_data. split; [done|]. split; [done|].
    apply Forall2_same_length_lookup. split; [done|].
    intros i cat cat' Hi Hi'. by simplify_eq.
  - exists (reconciled (dom visible_pages) menu_data),
      (List.filter (keeps_some (dom visible_pages)) menu_data).
    split; [done|]. split; [apply filter_sublist|].
    rewrite reconciled_map_filter.
    induction (List.filter (keeps_some (dom visible_pages)) menu_data)
      as [|cat cats IH]; cbn [map]; constructor; [|exact IH].
    split; [done|]. split; [done|].
    unfold links_of at 1, with_links, kept_links. cbn [links get_default].
    apply filter_sublist.
Qed.

(** A link without a page key is never removed: for every tree and every
    answer of the platform, an input link whose href has no ['/page/'] is
    still there, under its category, in what [validate_menu_visibility]
    returns. *)
Theorem validate_menu_visibility_keeps_external (w : PageVisibilityDetector.World)
    (experience_id : option string) (menu_data : list MenuCategory)
    (cat : MenuCategory) (link : MenuLink) :
  cat ∈ menu_data → link ∈ links_of cat → has_page_key link = false →
  ∃ out cat',
    validate_menu_visibility w experience_id menu_data = Returned out
    ∧ cat' ∈ out
    ∧ category cat' = category cat
    ∧ color cat' = color cat
    ∧ link ∈ links_of cat'.
Proof.
  intros Hcat Hlink Hext.
  destruct (validate_menu_visibility_cases w experience_id menu_data)
    as [->|(visible_pages & _ & _ & _ & ->)].
  - by exists menu_data, cat.
  - assert (link ∈ kept_links (dom visible_pages) cat) as Hkept.
    { unfold kept_links. apply list_elem_of_In, filter_In.
      split; [by apply list_elem_of_In|]. unfold keep_link. by rewrite Hext. }
    exists (reconciled (dom visible_pages) menu_data),
      (with_links cat (kept_links (dom visible_pages) cat)).
    split; [done|]. split; [|done].
    apply elem_of_reconciled. exists cat. split; [done|]. split; [|done].
    intros Hnil. rewrite Hnil in Hkept. by apply not_elem_of_nil in Hkept.
Qed.

Lemma validate_menu_visibility_keeps_external_witness :
  Examples.weather_clean_menu !! 0 = Some
    {| category := Some "2 Weather"; color := Some "btn-blue";
       links := Some [Examples.page_link "Precipitation" "page_84";
                      Examples.page_link "Flood Prediction" "page_95";
                      Examples.external_link] |}
  ∧ has_page_key Examples.external_link = false
  ∧ ∃ out cat',
      validate_menu_visibility (Examples.online None) (Some Examples.experience_id)
        Examples.weather_clean_menu = Returned out
      ∧ cat' ∈ out
      ∧ category cat' = Some "2 Weather"
      ∧ color cat' = Some "btn-blue"
      ∧ Examples.external_link ∈ links_of cat'.
Proof.
  split; [reflexivity|]. split; [reflexivity|].
  apply (validate_menu_visibility_keeps_external (Examples.online None)
           (Some Examples.experience_id) Examples.weather_clean_menu
           {| category := Some "2 Weather"; color := Some "btn-blue";
              links := Some [Examples.page_link "Precipitation" "page_84";
                             Examples.page_link "Flood Prediction" "page_95";
                             Examples.external_link] |}
           Examples.external_link).
  - apply list_elem_of_here.
  - unfold links_of. cbn [links get_default]. do 2 apply list_elem_of_further.
    apply list_elem_of_here.
  - reflexivity.
Defined.

(** The purpose of the pipeline: when the platform answers with a page
    collection, every link with a page key that is left in the validated
    tree of a well-formed menu points to a page of that collection which
    no rule hides. *)
Theorem validated_menu_links_only_visible_pages (w : PageVisibilityDetector.World)
    (experience_id : option string) (menu_data : list MenuCategory)
    (token : option json)
    (fetched : gmap string PageVisibilityDetector.PageData) :
  Py.truthy experience_id = true →
  valid_menu menu_data = true →
  PageVisibilityDetector.get_arcgis_token w = Returned token →
  PageVisibilityDetector.experience_item w (get_default experience_id "") token
    = Returned {| PageVisibilityDetector.pages := Some fetched |} →
  ∃ out,
    validate_menu_visibility w experience_id menu_data = Returned out
    ∧ ∀ cat link, cat ∈ out → link ∈ links_of cat → has_page_key link = true →
        ∃ page_data,
          fetched !! page_key link = Some page_data
          ∧ PageVisibilityDetector.should_hide_page (page_key link) page_data = false.
Proof.
  intros Hid Hok Htoken Hitem.
  pose proof (get_visible_pages_fetched w _ token fetched Htoken Hitem) as Hfetch.
  exists (reconciled (dom (PageVisibilityDetector.classify_pages fetched).1) menu_data).
  split.
  - rewrite (validate_menu_visibility_fetched _ _ _ _ Hid Hfetch).
    by rewrite reconcile_returns.
  - intros cat' link (cat & _ & _ & ->)%elem_of_reconciled Hlink Hkey.
    unfold links_of, with_links in Hlink. cbn [links get_default] in Hlink.
    apply list_elem_of_In, filter_In in Hlink as [_ Hkeep].
    unfold keep_link in Hkeep. rewrite Hkey in Hkeep.
    apply bool_decide_eq_true, elem_of_dom in Hkeep as [page_data Hvis].
    rewrite classify_pages_filter in Hvis. cbn [fst] in Hvis.
    apply map_lookup_filter_Some in Hvis as [Hin Hnot]. cbn [fst snd] in Hnot.
    exists page_data. split; [done|]. by apply not_true_is_false.
Qed.

Lemma validated_menu_links_only_visible_pages_witness :
  Py.truthy (Some Examples.experience_id) = true
  ∧ valid_menu Examples.weather_menu = true
  ∧ ∃ out,
      validate_menu_visibility (Examples.online (Some Examples.live_pages))
        (Some Examples.experience_id) Examples.weather_menu = Returned out
      ∧ ∀ cat link, cat ∈ out → link ∈ links_of cat → has_page_key link = true →
          ∃ page_data,
            Examples.live_pages !! page_key link = Some page_data
            ∧ PageVisibilityDetector.should_hide_page (page_key link) page_data = false.
Proof.
  split; [reflexivity|]. split; [reflexivity|].
  apply (validated_menu_links_only_visible_pages
           (Examples.online (Some Examples.live_pages))
           (Some Examples.experience_id) Examples.weather_menu
           (Some (JStr "t0k3n")) Examples.live_pages); reflexivity.
Defined.

End ReconcileAnyTree.

(** ** [validate_menu_against_visibility] *)

Section MenuCheckFacts.
Import MenuGenerator MenuSpec MenuFacts MenuCheck.

Lemma check_links_spec (visible : gset string) (cat : MenuCategory)
    (todo : list MenuLink) (issues : list Issue) :
  is_Some (category cat) → forallb valid_link todo = true →
  check_links visible cat todo issues =
    Returned (issues ++ map (fun link => to_issue (removed_entry cat link))
                (List.filter (fun link => negb (keep_link visible link)) todo)).
Proof.
  intros [c Hc]. revert issues.
  induction todo as [|link todo IH]; intros issues Hok.
  - simpl. by rewrite app_nil_r.
  - apply andb_prop in Hok as [Hlink Hok].
    destruct link as [[l|] [h|] [t|]]; try done.
    cbn [check_links List.filter href getitem mbind outcome_bind].
    set (link := {| label := Some l; href := Some h; term := Some t |}).
    rewrite (keep_link_href visible link h eq_refl). subst link.
    destruct (Py.contains "/page/" h); [destruct (bool_decide _)|]; cbn [negb map].
    + by apply IH.
    + rewrite Hc. cbn [getitem label mbind outcome_bind]. rewrite IH by done.
      rewrite <-app_assoc. unfold removed_entry at 2, to_issue at 2.
      by rewrite Hc.
    + by apply IH.
Qed.

Lemma check_categories_spec (visible : gset string)
    (todo : list MenuCategory) (issues : list Issue) :
  valid_menu todo = true →
  check_categories visible todo issues =
    Returned (issues ++ map to_issue (removed_report visible todo)).
Proof.
  revert issues. induction todo as [|cat todo IH]; intros issues Hok.
  - simpl. by rewrite app_nil_r.
  - apply andb_prop in Hok as [Hcat Hok]. unfold valid_category in Hcat.
    destruct (category cat) as [c|] eqn:Hc; [|done].
    destruct (color cat) as [k|] eqn:Hk; [|done].
    destruct (links cat) as [ls|] eqn:Hls; [|done].
    cbn [check_categories]. rewrite Hls. cbn [getitem mbind outcome_bind].
    rewrite check_links_spec by (by rewrite ?Hc). cbn [mbind outcome_bind].
    rewrite IH by done. unfold removed_report. cbn [map List.concat].
    rewrite map_app, <-app_assoc. unfold removed_of at 2, links_of.
    rewrite Hls. cbn [get_default]. by rewrite map_map.
Qed.

Lemma check_categories_lacks_links (visible : gset string)
    (todo : list MenuCategory) (issues : list Issue) :
  lacks_links todo = true →
  ∃ e, check_categories visible todo issues = Raised e.
Proof.
  revert issues. induction todo as [|cat todo IH]; intros issues Hlacks; [done|].
  cbn [lacks_links existsb] in Hlacks. cbn [check_categories].
  destruct (links cat) as [ls|] eqn:Hls; cbn [getitem mbind outcome_bind];
    [|by eauto].
  destruct (check_links visible cat ls issues) as [issues'|e];
    cbn [mbind outcome_bind]; [by apply IH|by eauto].
Qed.

Lemma filter_negb_nil {A} (f : A → bool) (l : list A) :
  List.filter (fun x => negb (f x)) l = [] ↔ forallb f l = true.
Proof.
  induction l as [|x l IH]; [done|]. simpl.
  destruct (f x); simpl; [done|]. split; done.
Qed.

Lemma removed_report_nil (visible : gset string) (menu : list MenuCategory) :
  removed_report visible menu = [] ↔ clean visible menu = true.
Proof.
  unfold removed_report, clean. induction menu as [|cat menu IH]; [done|].
  cbn [map List.concat forallb]. rewrite andb_true_iff, <-IH.
  rewrite <-filter_negb_nil. unfold removed_of.
  split.
  - intros [H1 H2]%app_eq_nil. split; [|done].
    by destruct (List.filter _ (links_of cat)).
  - intros [H1 H2]. by rewrite H1, H2.
Qed.

(** On a well-formed tree and with the visible pages fetched,
    [validate_menu_against_visibility] reports exactly the links that
    [validate_menu_visibility]'s loops remove, in the same order, and
    reports nothing iff every link with a page key points to a visible
    page. *)
Theorem check_reports_what_reconcile_removes (w : PageVisibilityDetector.World)
    (experience_id : string) (menu_data : list MenuCategory)
    (visible_pages : gmap string PageVisibilityDetector.PageData) :
  valid_menu menu_data = true →
  PageVisibilityDetector.get_visible_pages w experience_id = Returned visible_pages →
  ∃ cleaned_menu removed_items,
    reconcile (dom visible_pages) menu_data = Returned (cleaned_menu, removed_items)
    ∧ validate_menu_against_visibility w menu_data experience_id
        = Returned (map to_issue removed_items)
    ∧ (map to_issue removed_items = [] ↔ clean (dom visible_pages) menu_data = true).
Proof.
  intros Hok Hfetch.
  exists (reconciled (dom visible_pages) menu_data),
    (removed_report (dom visible_pages) menu_data).
  split; [by apply reconcile_returns|]. split.
  - unfold validate_menu_against_visibility. rewrite Hfetch.
    cbn [mbind outcome_bind]. by rewrite check_categories_spec.
  - rewrite <-removed_report_nil.
    by destruct (removed_report (dom visible_pages) menu_data).
Qed.

Lemma check_reports_what_reconcile_removes_witness :
  valid_menu Examples.weather_menu = true
  ∧ PageVisibilityDetector.get_visible_pages
      (Examples.online (Some Examples.live_pages)) Examples.experience_id
    = Returned (PageVisibilityDetector.classify_pages Examples.live_pages).1
  ∧ ∃ cleaned_menu removed_items,
      reconcile (dom (PageVisibilityDetector.classify_pages Examples.live_pages).1)
        Examples.weather_menu = Returned (cleaned_menu, removed_items)
      ∧ validate_menu_against_visibility (Examples.online (Some Examples.live_pages))
          Examples.weather_menu Examples.experience_id
        = Returned (map to_issue removed_items)
      ∧ (map to_issue removed_items = [] ↔
         clean (dom (PageVisibilityDetector.classify_pages Examples.live_pages).1)
           Examples.weather_menu = true).
Proof.
  split; [reflexivity|]. split; [reflexivity|].
  apply (check_reports_what_reconcile_removes
           (Examples.online (Some Examples.live_pages)) Examples.experience_id
           Examples.weather_menu
           (PageVisibilityDetector.classify_pages Examples.live_pages).1);
    reflexivity.
Defined.

(** Unlike [validate_menu_visibility], the check swallows nothing: when
    fetching the visible pages raises, the check raises the same exception
    while [validate_menu_visibility] returns the input tree. *)
Theorem check_raises_where_validation_falls_back (w : PageVisibilityDetector.World)
    (experience_id : string) (menu_data : list MenuCategory) (e : exn) :
  PageVisibilityDetector.get_visible_pages w experience_id = Raised e →
  validate_menu_against_visibility w menu_data experience_id = Raised e
  ∧ validate_menu_visibility w (Some experience_id) menu_data = Returned menu_data.
Proof.
  intros Hfetch. split.
  - unfold validate_menu_against_visibility. by rewrite Hfetch.
  - by apply (validate_menu_visibility_fetch_raised w (Some experience_id) menu_data e).
Qed.

Lemma check_raises_where_validation_falls_back_witness :
  PageVisibilityDetector.get_visible_pages Examples.fetch_fails Examples.experience_id
    = Raised RequestException
  ∧ validate_menu_against_visibility Examples.fetch_fails Examples.weather_menu
      Examples.experience_id = Raised RequestException
  ∧ validate_menu_visibility Examples.fetch_fails (Some Examples.experience_id)
      Examples.weather_menu = Returned Examples.weather_menu.
Proof.
  split; [reflexivity|].
  apply (check_raises_where_validation_falls_back Examples.fetch_fails
           Examples.experience_id Examples.weather_menu RequestException).
  reflexivity.
Defined.

(** A category without [links] makes the check raise, whatever the
    visible set. *)
Theorem check_raises_without_links (w : PageVisibilityDetector.World)
    (experience_id : string) (menu_data : list MenuCategory) :
  lacks_links menu_data = true →
  ∃ e, validate_menu_against_visibility w menu_data experience_id = Raised e.
Proof.
  intros Hlacks. unfold validate_menu_against_visibility.
  destruct (PageVisibilityDetector.get_visible_pages w experience_id)
    as [visible_pages|e]; cbn [mbind outcome_bind]; [|by eauto].
  by apply check_categories_lacks_links.
Qed.

Lemma check_raises_without_links_witness :
  lacks_links Examples.menu_without_links = true
  ∧ ∃ e, validate_menu_against_visibility (Examples.online (Some Examples.live_pages))
           Examples.menu_without_links Examples.experience_id = Raised e.
Proof.
  split; [reflexivity|].
  apply (check_raises_without_links (Examples.online (Some Examples.live_pages))
           Examples.experience_id Examples.menu_without_links).
  reflexivity.
Defined.

End MenuCheckFacts.

(** ** Cutting at a marker *)

Section Markers.

Lemma prefix_app_long (p x y : string) :
  String.prefix p (x +:+ y) = true → String.length p ≤ String.length x →
  String.prefix p x = true.
Proof.
  revert x. induction p as [|c p IH]; intros x Hp Hlen; [by destruct x|].
  destruct x as [|d x]; [simpl in Hlen; lia|].
  rewrite str_app_cons in Hp. simpl in *.
  destruct (ascii_dec c d); [|done]. apply IH; [done|lia].
Qed.

#[local] Arguments String.prefix : simpl never.

Lemma find_prefix (sep s : string) :
  String.prefix sep s = true → Py.find sep s = Some 0.
Proof. intros Hp. destruct s; simpl; by rewrite Hp. Qed.

Lemma find_cons_no_prefix (sep : string) (c : ascii) (s : string) :
  String.prefix sep (String c s) = false →
  Py.find sep (String c s) = S <$> Py.find sep s.
Proof. intros Hp. simpl. by rewrite Hp. Qed.

Lemma contains_cons_false (sep : string) (c : ascii) (s : string) :
  Py.contains sep (String c s) = false →
  String.prefix sep (String c s) = false ∧ Py.contains sep s = false.
Proof.
  unfold Py.contains. simpl.
  destruct (String.prefix sep (String c s)); [done|].
  by destruct (Py.find sep s).
Qed.

(** When no occurrence of the separator starts inside [a], the leftmost
    occurrence in [a ++ sep ++ b] is the one written there. *)
Lemma find_app_marker (sep init : string) (c : ascii) (a b : string) :
  sep = init +:+ String c "" →
  Py.contains sep (a +:+ init) = false →
  Py.find sep (a +:+ sep +:+ b) = Some (String.length a).
Proof.
  intros Hsep. induction a as [|d a IH]; intros Hc.
  - rewrite str_app_nil_l. apply find_prefix, str_prefix_iff. by exists b.
  - rewrite str_app_cons in Hc. apply contains_cons_false in Hc as [Hp Hc].
    rewrite str_app_cons, find_cons_no_prefix.
    + rewrite IH by done. done.
    + destruct (String.prefix sep (String d (a +:+ sep +:+ b))) eqn:Hp'; [|done].
      rewrite <-Hp. symmetry.
      apply (prefix_app_long sep (String d (a +:+ init)) (String c "" +:+ b)).
      * rewrite str_app_cons, str_app_assoc, <-(str_app_assoc init), <-Hsep. done.
      * rewrite Hsep, str_length_app. simpl. rewrite str_length_app. lia.
Qed.

Lemma take_app_length (a b : string) : Py.take (String.length a) (a +:+ b) = a.
Proof. induction a as [|c a IH]; [by destruct b|]. rewrite str_app_cons. simpl. by rewrite IH. Qed.

Lemma split_fuel_no_sep (fuel : nat) (sep s : string) :
  Py.contains sep s = false → Py.split_fuel fuel sep s = [s].
Proof.
  unfold Py.contains. intros Hc. destruct fuel; simpl; [done|].
  by destruct (Py.find sep s).
Qed.

(** [(a + sep + b).split(sep)] is [[a, b]] when no separator starts inside
    [a] and none occurs in [b]. *)
Lemma split_app_marker (sep init : string) (c : ascii) (a b : string) :
  sep = init +:+ String c "" →
  Py.contains sep (a +:+ init) = false →
  Py.contains sep b = false →
  Py.split sep (a +:+ sep +:+ b) = [a; b].
Proof.
  intros Hsep Ha Hb. unfold Py.split.
  assert (0 < String.length (a +:+ sep +:+ b)) as Hlen.
  { rewrite !str_length_app, Hsep, str_length_app. simpl. lia. }
  destruct (String.length (a +:+ sep +:+ b)) as [|fuel]; [lia|].
  simpl. rewrite (find_app_marker sep init c a b Hsep Ha).
  rewrite take_app_length, <-str_drop_drop, str_drop_app_length, str_drop_app_length.
  by rewrite split_fuel_no_sep.
Qed.

End Markers.

(** ** config.py: reading the config file *)

Section ConfigFile.
Import ConfigFacts.

#[local] Arguments String.prefix : simpl never.

Lemma lstrip_blank_app (ws s : string) :
  blank ws = true → Py.lstrip (ws +:+ s) = Py.lstrip s.
Proof.
  induction ws as [|c ws IH]; [done|]. cbn [blank].
  intros [Hc Hws]%andb_prop. rewrite str_app_cons. cbn [Py.lstrip]. rewrite Hc.
  by apply IH.
Qed.

Lemma rstrip_blank (ws : string) : blank ws = true → Py.rstrip ws = "".
Proof.
  induction ws as [|c ws IH]; [done|]. simpl.
  intros [Hc Hws]%andb_prop. by rewrite IH, Hc.
Qed.

Lemma rstrip_app_blank (s ws : string) :
  blank ws = true → Py.rstrip (s +:+ ws) = Py.rstrip s.
Proof.
  intros Hws. induction s as [|c s IH].
  - rewrite str_app_nil_l. by apply rstrip_blank.
  - rewrite str_app_cons. simpl. by rewrite IH.
Qed.

Lemma length_lstrip (s : string) : String.length (Py.lstrip s) ≤ String.length s.
Proof. induction s as [|c s IH]; [done|]. simpl. destruct (Py.isspace c); simpl; lia. Qed.

Lemma length_rstrip (s : string) : String.length (Py.rstrip s) ≤ String.length s.
Proof.
  induction s as [|c s IH]; [done|]. simpl.
  destruct (Py.rstrip s); [destruct (Py.isspace c)|]; simpl in *; lia.
Qed.

(** A string that [strip] leaves alone starts with a character that is not
    whitespace. *)
Lemma stripped_head (c : ascii) (s : string) :
  Py.strip (String c s) = String c s → Py.isspace c = false.
Proof.
  unfold Py.strip. simpl. destruct (Py.isspace c); [|done]. intros Heq.
  pose proof (length_rstrip (Py.lstrip s)). pose proof (length_lstrip s).
  rewrite Heq in *. simpl in *. lia.
Qed.

Lemma stripped_rstrip (s : string) : Py.strip s = s → Py.rstrip s = s.
Proof.
  destruct s as [|c s]; [done|]. intros Heq.
  pose proof (stripped_head c s Heq) as Hc.
  unfold Py.strip in Heq. simpl in Heq. by rewrite Hc in Heq.
Qed.

Lemma rstrip_app_keep (a v : string) :
  Py.rstrip v = v → v ≠ "" → Py.rstrip (a +:+ v) = a +:+ v.
Proof.
  intros Hv Hne. induction a as [|c a IH]; [done|].
  rewrite str_app_cons. simpl. rewrite IH.
  destruct (a +:+ v) eqn:Hav; [|done].
  destruct a; [|by rewrite str_app_cons in Hav]. by rewrite str_app_nil_l in Hav.
Qed.

Lemma contains_char_cons (c d : ascii) (s : string) :
  Py.contains (String c "") (String d s) =
    (if ascii_dec c d then true else Py.contains (String c "") s).
Proof.
  unfold Py.contains. simpl.
  change (String.prefix (String c "") (String d s))
    with (if ascii_dec c d then String.prefix "" s else false).
  destruct (ascii_dec c d); [by destruct s|].
  by destruct (Py.find (String c "") s).
Qed.

Lemma contains_char_app (c : ascii) (a b : string) :
  Py.contains (String c "") (a +:+ b) =
    Py.contains (String c "") a || Py.contains (String c "") b.
Proof.
  induction a as [|d a IH]; [done|].
  rewrite str_app_cons, !contains_char_cons. by destruct (ascii_dec c d).
Qed.

Lemma blank_no_equals (ws : string) : blank ws = true → Py.contains "=" ws = false.
Proof.
  induction ws as [|d ws IH]; [done|]. simpl. intros [Hd Hws]%andb_prop.
  rewrite contains_char_cons. destruct (ascii_dec _ d) as [<-|]; [done|by apply IH].
Qed.

Lemma split_once_equals (a b : string) :
  Py.contains "=" a = false → Config.split_once "=" (a +:+ "=" +:+ b) = [a; b].
Proof.
  intros Ha. unfold Config.split_once.
  rewrite (find_app_marker "=" "" "="%char a b eq_refl) by (by rewrite str_app_nil_r).
  by rewrite take_app_length, <-str_drop_drop, str_drop_app_length.
Qed.

(** What one line [KEY = value] does, with optional whitespace around the
    key, around the value and at both ends of the line. *)
Lemma read_line_assignment (config : gmap string string)
    (ws1 key ws2 ws3 value ws4 : string) :
  blank ws1 = true → blank ws2 = true → blank ws3 = true → blank ws4 = true →
  key ≠ "" → Py.strip key = key → Py.strip value = value →
  Py.contains "=" key = false → Config.startswith "#" key = false →
  Config.read_line config (ws1 +:+ key +:+ ws2 +:+ "=" +:+ ws3 +:+ value +:+ ws4)
    = <[key := value]> config.
Proof.
  intros H1 H2 H3 H4 Hkey Hk Hv Heq Hhash.
  pose proof (stripped_rstrip _ Hk) as Hkr.
  assert (∀ t, Py.lstrip (key +:+ t) = key +:+ t) as Hkl.
  { destruct key as [|c key]; [done|]. intros t.
    rewrite str_app_cons. cbn [Py.lstrip]. by rewrite (stripped_head c key Hk). }
  assert (∀ t, Py.truthy (Some (key +:+ t)) = true) as Htruthy.
  { destruct key as [|c key]; [done|]. intros t. by rewrite str_app_cons. }
  assert (∀ t, Config.startswith "#" (key +:+ t) = false) as Hnohash.
  { destruct key as [|c key]; [done|]. intros t. rewrite str_app_cons.
    unfold Config.startswith in *.
    change (String.prefix "#" (String c (key +:+ t)))
      with (if ascii_dec "#"%char c then String.prefix "" (key +:+ t) else false).
    change (String.prefix "#" (String c key))
      with (if ascii_dec "#"%char c then String.prefix "" key else false) in Hhash.
    destruct (ascii_dec "#"%char c); [|done]. by destruct key. }
  set (rest := if decide (value = "") then "" else ws3 +:+ value).
  assert (Py.strip (ws1 +:+ key +:+ ws2 +:+ "=" +:+ ws3 +:+ value +:+ ws4)
          = (key +:+ ws2) +:+ "=" +:+ rest) as Hline.
  { unfold Py.strip. rewrite lstrip_blank_app, Hkl by done.
    unfold rest. destruct (decide (value = "")) as [->|Hne].
    - rewrite (str_app_nil_l ws4), <-!str_app_assoc.
      rewrite !rstrip_app_blank by done.
      by rewrite (rstrip_app_keep _ "="), str_app_nil_r.
    - rewrite <-!str_app_assoc. rewrite rstrip_app_blank by done.
      rewrite (rstrip_app_keep _ value) by (by auto using stripped_rstrip).
      by rewrite !str_app_assoc. }
  unfold Config.read_line. cbv zeta. rewrite Hline.
  rewrite (str_app_assoc key), Htruthy, Hnohash, <-(str_app_assoc key).
  assert (Py.contains "=" ((key +:+ ws2) +:+ "=" +:+ rest) = true) as ->.
  { apply contains_iff. by eexists _, _. }
  cbn [negb andb].
  rewrite split_once_equals
    by (by rewrite contains_char_app, Heq, blank_no_equals).
  f_equal.
  - unfold Py.strip. by rewrite Hkl, rstrip_app_blank.
  - unfold rest. destruct (decide (value = "")) as [->|Hne]; [done|].
    unfold Py.strip. rewrite lstrip_blank_app by done. apply Hv.
Qed.

(** The last assignment of a key wins: a config file that ends with the
    line [KEY = value] (whitespace allowed around key and value and at the
    ends of the line; only the first ['='] cuts, so the value may contain
    ['=']) loads with [config[KEY] = value], whatever the earlier lines
    say, and with every other key as the earlier lines leave it.
    Whitespace is what [str.strip()] takes away, next line (U+0085) and
    no-break space (U+00A0) included: [key] and [value] neither start nor
    end with any of it. *)
Theorem load_global_config_last_assignment (lines : list string)
    (ws1 key ws2 ws3 value ws4 : string) :
  blank ws1 = true → blank ws2 = true → blank ws3 = true → blank ws4 = true →
  key ≠ "" → Py.strip key = key → Py.strip value = value →
  Py.contains "=" key = false → Config.startswith "#" key = false →
  ∃ before config,
    Config.load_global_config (Some lines) = Returned before
    ∧ Config.load_global_config
        (Some (lines ++ [ws1 +:+ key +:+ ws2 +:+ "=" +:+ ws3 +:+ value +:+ ws4]))
      = Returned config
    ∧ config !! key = Some value
    ∧ ∀ other, other ≠ key → config !! other = before !! other.
Proof.
  intros H1 H2 H3 H4 Hkey Hk Hv Heq Hhash.
  exists (foldl Config.read_line ∅ lines),
    (<[key := value]> (foldl Config.read_line ∅ lines)).
  split; [done|]. split.
  - unfold Config.load_global_config. rewrite foldl_app. cbn [foldl].
    by rewrite read_line_assignment.
  - split; [apply lookup_insert_eq|]. intros other Hne. by apply lookup_insert_ne.
Qed.

Lemma load_global_config_last_assignment_witness :
  ∃ before config,
    Config.load_global_config (Some ["ARCGIS_PORTAL_URL=http://old"; "# portal"])
      = Returned before
    ∧ Config.load_global_config
        (Some (["ARCGIS_PORTAL_URL=http://old"; "# portal"] ++
               [String "160"%char " " +:+ "ARCGIS_PORTAL_URL" +:+ " " +:+ "=" +:+ " "
                +:+ "https://maps.example.org/?a=b" +:+ String "010"%char ""]))
      = Returned config
    ∧ config !! "ARCGIS_PORTAL_URL" = Some "https://maps.example.org/?a=b"
    ∧ ∀ other, other ≠ "ARCGIS_PORTAL_URL" → config !! other = before !! other.
Proof.
  apply (load_global_config_last_assignment
           ["ARCGIS_PORTAL_URL=http://old"; "# portal"]
           (String "160"%char " ") "ARCGIS_PORTAL_URL" " " " "
           "https://maps.example.org/?a=b"
           (String "010"%char "")); try reflexivity.
  discriminate.
Defined.

(** Lines that are blank, that start with ['#'] after stripping, or that
    have no ['='] leave the configuration as it is, wherever they stand in
    the file. *)
Theorem load_global_config_skips (before after : list string) (line : string) :
  Py.strip line = ""
  ∨ Config.startswith "#" (Py.strip line) = true
  ∨ Py.contains "=" (Py.strip line) = false →
  Config.load_global_config (Some (before ++ line :: after))
    = Config.load_global_config (Some (before ++ after)).
Proof.
  intros Hskip. unfold Config.load_global_config. f_equal.
  rewrite !foldl_app. cbn [foldl]. f_equal.
  unfold Config.read_line. cbv zeta.
  destruct Hskip as [->|[->| ->]]; [done| |].
  - by destruct (Py.truthy _).
  - by destruct (Py.truthy _), (negb _).
Qed.

Lemma load_global_config_skips_witness :
  (Py.strip "   # ARCGIS_CLIENT_ID=disabled" = ""
   ∨ Config.startswith "#" (Py.strip "   # ARCGIS_CLIENT_ID=disabled") = true
   ∨ Py.contains "=" (Py.strip "   # ARCGIS_CLIENT_ID=disabled") = false)
  ∧ Config.load_global_config
      (Some (["ARCGIS_CLIENT_ID=abc"] ++
             "   # ARCGIS_CLIENT_ID=disabled" :: ["ARCGIS_CLIENT_SECRET=xyz"]))
    = Config.load_global_config
        (Some (["ARCGIS_CLIENT_ID=abc"] ++ ["ARCGIS_CLIENT_SECRET=xyz"])).
Proof.
  assert (Py.strip "   # ARCGIS_CLIENT_ID=disabled" = ""
          ∨ Config.startswith "#" (Py.strip "   # ARCGIS_CLIENT_ID=disabled") = true
          ∨ Py.contains "=" (Py.strip "   # ARCGIS_CLIENT_ID=disabled") = false) as H
    by (right; left; reflexivity).
  split; [exact H|].
  exact (load_global_config_skips ["ARCGIS_CLIENT_ID=abc"] ["ARCGIS_CLIENT_SECRET=xyz"]
           "   # ARCGIS_CLIENT_ID=disabled" H).
Defined.

End ConfigFile.

(** ** Building a menu, saving it, validating it for deployment *)

Section Builder.
Import MenuGenerator MenuSpec MenuBuilder BuilderFacts.

Lemma build_experience_url_returns (env_file : option (list string))
    (creds : PageVisibilityDetector.Credentials) (page_id : string)
    (experience_id : option string) :
  Config.get_arcgis_credentials env_file = Returned creds →
  Config.build_experience_url env_file page_id experience_id
    = Returned (url_base creds experience_id +:+ "/page/" +:+ page_id).
Proof.
  intros Hc. unfold Config.build_experience_url. rewrite Hc.
  cbn [mbind outcome_bind mret outcome_ret]. unfold url_base.
  by rewrite !str_app_assoc.
Qed.

Lemma create_links_spec (env_file : option (list string))
    (creds : PageVisibilityDetector.Credentials) (experience_id : option string)
    (items : list MenuItem) (built : list MenuLink) :
  Config.get_arcgis_credentials env_file = Returned creds →
  forallb complete_item items = true →
  create_links env_file experience_id items built
    = Returned (built ++ map (item_link creds experience_id) items).
Proof.
  intros Hc. revert built. induction items as [|item items IH]; intros built Hok.
  - simpl. by rewrite app_nil_r.
  - apply andb_prop in Hok as [Hitem Hok].
    destruct item as [[l|] [p|] s]; try done.
    cbn [create_links item_label item_page_id item_search_terms getitem
         mbind outcome_bind].
    unfold Config.create_menu_item.
    rewrite (build_experience_url_returns env_file creds p experience_id Hc).
    cbn [mbind outcome_bind mret outcome_ret]. rewrite IH by done.
    rewrite <-app_assoc. cbn [map app]. do 3 f_equal.
    unfold item_link, page_id_of_item.
    cbn [item_label item_page_id item_search_terms get_default].
    by destruct (get_default s "").
Qed.

(** With the config file in place and every item carrying a label and a
    page id, [create_category] returns a well-formed category with one link
    per item, in the order of the items; the link's term is the item's
    search terms, or its label when there are none. *)
Theorem create_category_builds (env_file : option (list string))
    (creds : PageVisibilityDetector.Credentials) (experience_id : option string)
    (category_name color : string) (items : list MenuItem) :
  Config.get_arcgis_credentials env_file = Returned creds →
  forallb complete_item items = true →
  ∃ cat,
    create_category env_file experience_id category_name color items = Returned cat
    ∧ category cat = Some category_name
    ∧ MenuGenerator.color cat = Some color
    ∧ links cat = Some (map (item_link creds experience_id) items)
    ∧ valid_category cat = true.
Proof.
  intros Hc Hok. eexists. split.
  - unfold create_category. rewrite (create_links_spec _ creds) by done.
    cbn [mbind outcome_bind mret outcome_ret app]. reflexivity.
  - repeat split. unfold valid_category. cbn [category MenuGenerator.color links].
    clear Hok. induction items as [|item items IH]; [done|]. by cbn.
Qed.

Lemma create_category_builds_witness :
  Config.get_arcgis_credentials (Some ["ARCGIS_BASE_EXPERIENCE_ID=abc123"])
    = Returned
        {| PageVisibilityDetector.client_id := None;
           PageVisibilityDetector.client_secret := None;
           PageVisibilityDetector.portal_url := "https://experience.arcgis.com";
           PageVisibilityDetector.base_experience_id := Some "abc123" |}
  ∧ ∃ cat,
      create_category (Some ["ARCGIS_BASE_EXPERIENCE_ID=abc123"]) None
        "8 Regional Risk Tool" "btn-black"
        [ {| item_label := Some "Regional Risk Tool";
             item_page_id := Some "Regional-Risk-Tool";
             item_search_terms := None |} ] = Returned cat
      ∧ category cat = Some "8 Regional Risk Tool"
      ∧ MenuGenerator.color cat = Some "btn-black"
      ∧ links cat = Some
          (map (item_link
                  {| PageVisibilityDetector.client_id := None;
                     PageVisibilityDetector.client_secret := None;
                     PageVisibilityDetector.portal_url := "https://experience.arcgis.com";
                     PageVisibilityDetector.base_experience_id := Some "abc123" |}
                  None)
               [ {| item_label := Some "Regional Risk Tool";
                    item_page_id := Some "Regional-Risk-Tool";
                    item_search_terms := None |} ])
      ∧ valid_category cat = true.
Proof.
  split; [vm_compute; reflexivity|].
  apply (create_category_builds (Some ["ARCGIS_BASE_EXPERIENCE_ID=abc123"])).
  - vm_compute. reflexivity.
  - reflexivity.
Defined.

(** The page id round trip: a link made by [create_menu_item] gives its
    page id back as the page key read by [validate_menu_visibility],
    provided the page id contains no ['/page/'] and no ['/page/'] starts
    inside the URL in front of it.  Such a link is kept iff its page id is
    in the visible set. *)
Theorem create_menu_item_page_key (env_file : option (list string))
    (creds : PageVisibilityDetector.Credentials)
    (label page_id search_terms : string) (experience_id : option string) :
  Config.get_arcgis_credentials env_file = Returned creds →
  Py.contains "/page/" (url_base creds experience_id +:+ "/page") = false →
  Py.contains "/page/" page_id = false →
  ∃ link,
    Config.create_menu_item env_file label page_id search_terms experience_id
      = Returned link
    ∧ has_page_key link = true
    ∧ page_key link = page_id
    ∧ ∀ visible, keep_link visible link = bool_decide (page_id ∈ visible).
Proof.
  intros Hc Hbase Hid. eexists. split.
  - unfold Config.create_menu_item.
    rewrite (build_experience_url_returns env_file creds page_id experience_id Hc).
    cbn [mbind outcome_bind mret outcome_ret]. reflexivity.
  - assert (Py.contains "/page/" (url_base creds experience_id +:+ "/page/" +:+ page_id)
            = true) as Hhas.
    { apply contains_iff. by eexists _, _. }
    assert (page_id_of (url_base creds experience_id +:+ "/page/" +:+ page_id)
            = page_id) as Hkey.
    { unfold page_id_of.
      by rewrite (split_app_marker "/page/" "/page" "/"%char _ _ eq_refl Hbase Hid). }
    unfold keep_link, has_page_key, page_key, href_of. cbn [href get_default].
    rewrite Hhas, Hkey. done.
Qed.

Lemma create_menu_item_page_key_witness :
  Py.contains "/page/"
    (url_base Examples.creds None +:+ "/page") = false
  ∧ Py.contains "/page/" "Heat-Risk" = false
  ∧ ∃ link,
      Config.create_menu_item
        (Some ["ARCGIS_CLIENT_ID=client"; "ARCGIS_CLIENT_SECRET=secret";
               "ARCGIS_BASE_EXPERIENCE_ID=ce0b7dc7574c49a8a82f36443fee494f"])
        "Heat Risk" "Heat-Risk" "" None = Returned link
      ∧ has_page_key link = true
      ∧ page_key link = "Heat-Risk"
      ∧ ∀ visible, keep_link visible link = bool_decide ("Heat-Risk" ∈ visible).
Proof.
  split; [vm_compute; reflexivity|]. split; [vm_compute; reflexivity|].
  apply (create_menu_item_page_key
           (Some ["ARCGIS_CLIENT_ID=client"; "ARCGIS_CLIENT_SECRET=secret";
                  "ARCGIS_BASE_EXPERIENCE_ID=ce0b7dc7574c49a8a82f36443fee494f"])
           Examples.creds "Heat Risk" "Heat-Risk" "" None);
    vm_compute; reflexivity.
Defined.

Lemma validate_link_to_json (link : MenuLink) :
  Deploy.validate_link (link_to_json link) = valid_link link.
Proof. by destruct link as [[l|] [h|] [t|]]. Qed.

Lemma forallb_map_ext {A B} (f : B → bool) (g : A → bool) (h : A → B) (l : list A) :
  (∀ x, f (h x) = g x) → forallb f (map h l) = forallb g l.
Proof. intros Hfg. induction l as [|x l IH]; [done|]. simpl. by rewrite Hfg, IH. Qed.

Lemma validate_category_to_json (cat : MenuCategory) :
  Deploy.validate_category (category_to_json cat) = valid_category cat.
Proof.
  destruct cat as [[c|] [k|] [ls|]]; try done.
  unfold valid_category, category_to_json, Deploy.validate_category.
  cbn [category color links fmap option_fmap option_map put].
  rewrite lookup_insert_ne, lookup_insert_ne, lookup_insert_eq by done.
  rewrite (forallb_map_ext _ valid_link) by apply validate_link_to_json.
  done.
Qed.

(** The deployment gate and the data model agree: with the tree
    [menu_data] in [menu.json], [validate_menu] passes exactly when every
    category carries [category], [color] and [links] and every link
    [label], [href] and [term]. *)
Theorem validate_menu_accepts_well_formed (w : Deploy.World)
    (menu_data : list MenuCategory) :
  Deploy.menu_file w = Deploy.Json (menu_to_json menu_data) →
  Deploy.validate_menu w = valid_menu menu_data.
Proof.
  intros Hfile. unfold Deploy.validate_menu. rewrite Hfile. unfold menu_to_json.
  apply forallb_map_ext, validate_category_to_json.
Qed.

Lemma validate_menu_accepts_well_formed_witness :
  Deploy.menu_file
    {| Deploy.config := Examples.deploy_config;
       Deploy.menu_file := Deploy.Json (menu_to_json Examples.menu_without_links);
       Deploy.run := Examples.tree_clean;
       Deploy.post := fun _ _ _ => Examples.accepted;
       Deploy.backup_stamp := ""; Deploy.commit_stamp := "" |}
    = Deploy.Json (menu_to_json Examples.menu_without_links)
  ∧ Deploy.validate_menu
      {| Deploy.config := Examples.deploy_config;
         Deploy.menu_file := Deploy.Json (menu_to_json Examples.menu_without_links);
         Deploy.run := Examples.tree_clean;
         Deploy.post := fun _ _ _ => Examples.accepted;
         Deploy.backup_stamp := ""; Deploy.commit_stamp := "" |}
    = valid_menu Examples.menu_without_links.
Proof.
  split; [reflexivity|].
  apply (validate_menu_accepts_well_formed _ Examples.menu_without_links).
  reflexivity.
Defined.

(** What [save_menu] writes for a well-formed menu always passes the
    validation of the deployment run: with or without the visibility
    check, and whatever the platform answers, even when every category was
    pruned. *)
Theorem saved_menu_passes_validation (w : PageVisibilityDetector.World)
    (experience_id : option string) (menu_data : list MenuCategory)
    (validate_visibility : bool) (d : Deploy.World) :
  valid_menu menu_data = true →
  ∃ written,
    save_menu w experience_id menu_data validate_visibility = Returned written
    ∧ (Deploy.menu_file d = Deploy.Json written → Deploy.validate_menu d = true).
Proof.
  intros Hok. unfold save_menu. destruct validate_visibility.
  - destruct (validate_menu_visibility_cases w experience_id menu_data)
      as [->|(visible_pages & _ & _ & _ & ->)]; cbn [mbind outcome_bind].
    + eexists. split; [done|]. intros Hfile.
      by rewrite (validate_menu_accepts_well_formed d menu_data Hfile).
    + eexists. split; [done|]. intros Hfile.
      rewrite (validate_menu_accepts_well_formed d _ Hfile).
      by destruct (reconciled_valid_clean (dom visible_pages) menu_data Hok).
  - cbn [mbind outcome_bind mret outcome_ret]. eexists. split; [done|].
    intros Hfile. by rewrite (validate_menu_accepts_well_formed d menu_data Hfile).
Qed.

Lemma saved_menu_passes_validation_witness :
  valid_menu Examples.weather_menu = true
  ∧ ∃ written,
      save_menu (Examples.online None) (Some Examples.experience_id)
        Examples.weather_menu true = Returned written
      ∧ (Deploy.menu_file Examples.both_ok = Deploy.Json written →
         Deploy.validate_menu Examples.both_ok = true).
Proof.
  split; [reflexivity|].
  apply (saved_menu_passes_validation (Examples.online None)
           (Some Examples.experience_id) Examples.weather_menu true Examples.both_ok).
  reflexivity.
Defined.

End Builder.

(** ** deploy.py: the two publish steps and the backup *)

Section DeploySteps.
Import Deploy DeployFacts ConfigFacts.

Lemma lstrip_nil_blank (s : string) : Py.lstrip s = "" → blank s = true.
Proof.
  induction s as [|c s IH]; [done|]. cbn [Py.lstrip blank].
  destruct (Py.isspace c); [exact IH|done].
Qed.

Lemma rstrip_nil_blank (s : string) : Py.rstrip s = "" → blank s = true.
Proof.
  induction s as [|c s IH]; [done|]. cbn [Py.rstrip blank].
  destruct (Py.rstrip s); [|done].
  destruct (Py.isspace c); [intros _; by apply IH|done].
Qed.

Lemma lstrip_blank (s : string) : blank s = true → Py.lstrip s = "".
Proof.
  induction s as [|c s IH]; [done|]. cbn [Py.lstrip blank].
  intros [-> Hs]%andb_prop. by apply IH.
Qed.

Lemma blank_lstrip (s : string) : blank (Py.lstrip s) = true → blank s = true.
Proof.
  induction s as [|c s IH]; [done|]. cbn [Py.lstrip].
  destruct (Py.isspace c) eqn:Hc; [|done]. cbn [blank]. rewrite Hc. exact IH.
Qed.

(** [s.strip()] is empty exactly for a string of whitespace. *)
Lemma strip_nil_iff (s : string) : Py.strip s = "" ↔ blank s = true.
Proof.
  unfold Py.strip. split.
  - intros Hs%rstrip_nil_blank. by apply blank_lstrip.
  - intros Hs. by rewrite lstrip_blank.
Qed.

Lemma truthy_strip (s : string) :
  Py.truthy (Some (Py.strip s)) = negb (blank s).
Proof.
  destruct (blank s) eqn:Hb.
  - apply strip_nil_iff in Hb. by rewrite Hb.
  - destruct (Py.strip s) eqn:Hs; [|done].
    apply strip_nil_iff in Hs. congruence.
Qed.

(** [deploy_to_github] succeeds exactly when [git status --porcelain]
    prints nothing but whitespace, in which case no further command
    matters, or when [git add .], [git commit -m message] and [git push]
    all exit with zero; the message is the caller's, or the timestamped
    default when the caller gave none or an empty one. *)
Theorem deploy_to_github_success_iff (w : World) (commit_message : option string) :
  deploy_to_github w commit_message = true ↔
    blank (stdout (run w ["git"; "status"; "--porcelain"])) = true
    ∨ (exit_ok (run w ["git"; "add"; "."]) = true
       ∧ exit_ok (run w ["git"; "commit"; "-m"; used_message w commit_message]) = true
       ∧ exit_ok (run w ["git"; "push"]) = true).
Proof.
  unfold deploy_to_github, check_git_status, run_command. rewrite truthy_strip.
  destruct (blank (stdout (run w ["git"; "status"; "--porcelain"]))); cbn [negb].
  { split; [by left|done]. }
  assert ((if negb (Py.truthy commit_message)
           then "Update ArcGIS Experience Builder menu - " +:+ commit_stamp w
           else get_default commit_message "") = used_message w commit_message) as ->.
  { by destruct commit_message as [[|c m]|]. }
  destruct (exit_ok (run w ["git"; "add"; "."])); cbn [negb];
    [|split; [done|intros [?|(? & _)]; done]].
  destruct (exit_ok (run w ["git"; "commit"; "-m"; used_message w commit_message]));
    cbn [negb]; [|split; [done|intros [?|(_ & ? & _)]; done]].
  destruct (exit_ok (run w ["git"; "push"]));
    [split; [by right|done]|split; [done|intros [?|(_ & _ & ?)]; done]].
Qed.

(** [existsb is_message] is the test ['message' in result] on a list. *)
Lemma existsb_is_message (l : list json) :
  existsb is_message l = false ↔ JStr "message" ∉ l.
Proof.
  induction l as [|x l IH]; [by split; [intros _ ?%not_elem_of_nil|]|].
  cbn [existsb]. rewrite orb_false_iff, IH, not_elem_of_cons.
  assert (is_message x = false ↔ JStr "message" ≠ x) as ->; [|done].
  destruct x as [| | |s| |]; cbn [is_message]; try (split; done).
  rewrite String.eqb_neq. split; intros H; congruence.
Qed.

(** An ok response is not enough for the publish to PythonAnywhere: when
    its JSON body is a list or a string that holds ['message'], the
    subscript [result['message']] raises and the publish reports failure. *)
Example ok_response_with_message_in_list :
  deploy_to_pythonanywhere
    (Examples.deploy_world Examples.tree_clean
       (Response true (Some (JList [JNum 1; JStr "message"])))) = false
  ∧ deploy_to_pythonanywhere
      (Examples.deploy_world Examples.tree_clean
         (Response true (Some (JStr "no message")))) = false
  ∧ deploy_to_pythonanywhere
      (Examples.deploy_world Examples.tree_clean
         (Response true (Some (JList [JStr "done"])))) = true.
Proof. repeat split; vm_compute; reflexivity. Qed.

(** A full deployment that returns [True] means: [menu.json] held a list
    of categories that passes the structural checks, that very value was
    posted to [<base url>/menu] and answered with an ok response whose
    JSON body lets the message lines run through (an object, or a list or
    a string in which ['message'] is not found), and git either had nothing
    to commit or added, committed and pushed. *)
Theorem full_deployment_success_means (w : World) (commit_message : option string) :
  full_deployment w commit_message = true →
  ∃ categories result,
    menu_file w = Json (JList categories)
    ∧ forallb validate_category categories = true
    ∧ post w (fmt (menu_api_base_url (config w)) +:+ "/menu")
        (menu_api_password (config w)) (JList categories)
      = Response true (Some result)
    ∧ match result with
      | JDict _ => True
      | JList l => JStr "message" ∉ l
      | JStr s => Py.contains "message" s = false
      | JNull | JBool _ | JNum _ => False
      end
    ∧ (blank (stdout (run w ["git"; "status"; "--porcelain"])) = true
       ∨ (exit_ok (run w ["git"; "add"; "."]) = true
          ∧ exit_ok (run w ["git"; "commit"; "-m"; used_message w commit_message])
              = true
          ∧ exit_ok (run w ["git"; "push"]) = true)).
Proof.
  unfold full_deployment.
  destruct (validate_menu w) eqn:Hval; cbn [negb]; [|done].
  destruct (deploy_to_github w commit_message) eqn:Hgit; [|done].
  destruct (deploy_to_pythonanywhere w) eqn:Hhttp; [|done]. intros _.
  apply deploy_to_github_success_iff in Hgit.
  unfold validate_menu in Hval. unfold deploy_to_pythonanywhere in Hhttp.
  destruct (menu_file w) as [| |[| | | |categories|]]; try done.
  destruct (post w _ _ _) as [|[] [result|]] eqn:Hpost; try done.
  exists categories, result. split; [done|]. split; [done|]. split; [done|].
  split; [|done].
  destruct result as [| | |s|l|d]; cbn [message_lines_pass] in Hhttp; try done.
  - by apply negb_true_iff in Hhttp.
  - apply negb_true_iff in Hhttp. by apply existsb_is_message.
Qed.

Lemma full_deployment_success_means_witness :
  full_deployment Examples.both_ok None = true
  ∧ ∃ categories result,
      menu_file Examples.both_ok = Json (JList categories)
      ∧ forallb validate_category categories = true
      ∧ post Examples.both_ok
          (fmt (menu_api_base_url (config Examples.both_ok)) +:+ "/menu")
          (menu_api_password (config Examples.both_ok)) (JList categories)
        = Response true (Some result)
      ∧ match result with
        | JDict _ => True
        | JList l => JStr "message" ∉ l
        | JStr s => Py.contains "message" s = false
        | JNull | JBool _ | JNum _ => False
        end
      ∧ (blank (stdout (run Examples.both_ok ["git"; "status"; "--porcelain"])) = true
         ∨ (exit_ok (run Examples.both_ok ["git"; "add"; "."]) = true
            ∧ exit_ok (run Examples.both_ok
                         ["git"; "commit"; "-m"; used_message Examples.both_ok None])
                = true
            ∧ exit_ok (run Examples.both_ok ["git"; "push"]) = true)).
Proof.
  assert (full_deployment Examples.both_ok None = true) as H
    by (vm_compute; reflexivity).
  split; [exact H|]. exact (full_deployment_success_means Examples.both_ok None H).
Defined.

End DeploySteps.

(** ** fix_page_urls.py *)

Section FixUrls.
Import MenuGenerator MenuSpec MenuFacts FixPageUrls FixFacts.

Lemma fix_links_spec (todo visited : list MenuLink) (fixed_count missing_count : nat) :
  forallb valid_link todo = true →
  fix_links todo visited fixed_count missing_count =
    Returned (visited ++ map fix_link todo,
              fixed_count + length (List.filter is_mapped todo),
              missing_count + (length todo - length (List.filter is_mapped todo))).
Proof.
  revert visited fixed_count missing_count.
  induction todo as [|link todo IH]; intros visited fixed_count missing_count Hok.
  - simpl. by rewrite app_nil_r, !Nat.add_0_r.
  - apply andb_prop in Hok as [Hlink Hok].
    destruct link as [[l|] [h|] [t|]]; try done.
    cbn [fix_links label href getitem mbind outcome_bind List.filter map].
    pose proof (filter_length_le is_mapped todo).
    set (link := {| label := Some l; href := Some h; term := Some t |}).
    assert (is_mapped link = match PAGE_MAPPING !! l with
                             | Some _ => true
                             | None => false
                             end) as -> by done.
    assert (fix_link link = match PAGE_MAPPING !! l with
                            | Some page_id => set_href link (BASE_URL +:+ page_id)
                            | None => link
                            end) as -> by done.
    destruct (PAGE_MAPPING !! l) as [page_id|]; rewrite IH by done;
      rewrite <-app_assoc; cbn [app length]; f_equal;
      apply pair_equal_spec; (split; [apply pair_equal_spec; split; [done|lia]|lia]).
Qed.

Lemma count_links_fixed (menu : list MenuCategory) :
  count_links (fixed_menu menu) = count_links menu.
Proof.
  induction menu as [|cat menu IH]; [done|].
  unfold fixed_menu. cbn [map]. fold (fixed_menu menu).
  rewrite !count_links_cons, IH. unfold links_of at 1, with_links.
  cbn [links get_default]. by rewrite length_map.
Qed.

Lemma count_mapped_cons (cat : MenuCategory) (menu : list MenuCategory) :
  count_mapped (cat :: menu)
    = length (List.filter is_mapped (links_of cat)) + count_mapped menu.
Proof. done. Qed.

Lemma count_mapped_le (menu : list MenuCategory) :
  count_mapped menu ≤ count_links menu.
Proof.
  induction menu as [|cat menu IH]; [done|].
  rewrite count_mapped_cons, count_links_cons.
  pose proof (filter_length_le is_mapped (links_of cat)). lia.
Qed.

Lemma fix_categories_spec (todo visited : list MenuCategory)
    (fixed_count missing_count : nat) :
  valid_menu todo = true →
  fix_categories todo visited fixed_count missing_count =
    Returned (visited ++ fixed_menu todo,
              fixed_count + count_mapped todo,
              missing_count + (count_links todo - count_mapped todo)).
Proof.
  revert visited fixed_count missing_count.
  induction todo as [|cat todo IH]; intros visited fixed_count missing_count Hok.
  - simpl. by rewrite app_nil_r, !Nat.add_0_r.
  - apply andb_prop in Hok as [Hcat Hok]. unfold valid_category in Hcat.
    destruct (category cat) as [c|] eqn:Hc; [|done].
    destruct (color cat) as [k|] eqn:Hk; [|done].
    destruct (links cat) as [ls|] eqn:Hls; [|done].
    cbn [fix_categories]. rewrite Hc, Hls. cbn [getitem mbind outcome_bind].
    rewrite fix_links_spec by done. cbn [mbind outcome_bind app].
    rewrite IH by done. rewrite <-app_assoc.
    rewrite count_mapped_cons, count_links_cons.
    unfold fixed_menu. cbn [map app]. fold (fixed_menu todo).
    unfold links_of. rewrite Hls. cbn [get_default].
    pose proof (filter_length_le is_mapped ls).
    pose proof (count_mapped_le todo).
    f_equal. apply pair_equal_spec.
    split; [apply pair_equal_spec; split; [done|lia]|lia].
Qed.

Lemma valid_fix_link (link : MenuLink) :
  valid_link link = true → valid_link (fix_link link) = true.
Proof.
  unfold fix_link. destruct (mapped link); [|done].
  by destruct link as [[l|] [h|] [t|]].
Qed.

Lemma fixed_menu_valid (menu : list MenuCategory) :
  valid_menu menu = true → valid_menu (fixed_menu menu) = true.
Proof.
  induction menu as [|cat menu IH]; [done|].
  unfold fixed_menu. cbn [map valid_menu forallb]. fold (fixed_menu menu).
  fold (valid_menu menu). fold (valid_menu (fixed_menu menu)).
  intros [Hcat Hok]%andb_prop. rewrite IH, andb_true_r by done.
  destruct cat as [[c|] [k|] [ls|]]; try done.
  unfold valid_category, with_links, links_of in *.
  cbn [category color links get_default] in *.
  induction ls as [|link ls IHls]; [done|]. cbn [map forallb] in *.
  apply andb_prop in Hcat as [Hlink Hls].
  by rewrite valid_fix_link, IHls.
Qed.

(** On a well-formed tree [fix_menu_urls] returns a well-formed tree with
    the same categories and the same number of links, and its two counters
    add up to the number of links: every link is counted once, as fixed
    (its label is in [PAGE_MAPPING]) or as missing. *)
Theorem fix_menu_urls_counts_every_link (menu_data : list MenuCategory) :
  valid_menu menu_data = true →
  ∃ fixed_count missing_count,
    fix_menu_urls menu_data = Returned (fixed_menu menu_data, fixed_count, missing_count)
    ∧ fixed_count = count_mapped menu_data
    ∧ fixed_count + missing_count = count_links menu_data
    ∧ valid_menu (fixed_menu menu_data) = true
    ∧ map category (fixed_menu menu_data) = map category menu_data
    ∧ count_links (fixed_menu menu_data) = count_links menu_data.
Proof.
  intros Hok. unfold fix_menu_urls. rewrite fix_categories_spec by done.
  cbn [app]. eexists _, _. split; [done|]. split; [done|].
  pose proof (count_mapped_le menu_data).
  split; [lia|]. split; [by apply fixed_menu_valid|].
  split; [|apply count_links_fixed].
  unfold fixed_menu. rewrite map_map. by apply map_ext.
Qed.

Lemma fix_menu_urls_counts_every_link_witness :
  valid_menu Examples.weather_clean_menu = true
  ∧ ∃ fixed_count missing_count,
      fix_menu_urls Examples.weather_clean_menu
        = Returned (fixed_menu Examples.weather_clean_menu, fixed_count, missing_count)
      ∧ fixed_count = count_mapped Examples.weather_clean_menu
      ∧ fixed_count + missing_count = count_links Examples.weather_clean_menu
      ∧ valid_menu (fixed_menu Examples.weather_clean_menu) = true
      ∧ map category (fixed_menu Examples.weather_clean_menu)
        = map category Examples.weather_clean_menu
      ∧ count_links (fixed_menu Examples.weather_clean_menu)
        = count_links Examples.weather_clean_menu.
Proof.
  split; [reflexivity|].
  apply (fix_menu_urls_counts_every_link Examples.weather_clean_menu). reflexivity.
Defined.



Lemma fix_link_idempotent (link : MenuLink) : fix_link (fix_link link) = fix_link link.
Proof.
  unfold fix_link at 2. destruct (mapped link) as [page_id|] eqn:Hm.
  - unfold fix_link, mapped in *. cbn [set_href label]. rewrite Hm.
    unfold set_href. by cbn.
  - unfold fix_link. by rewrite Hm.
Qed.

Lemma is_mapped_fix_link (link : MenuLink) : is_mapped (fix_link link) = is_mapped link.
Proof.
  unfold is_mapped, fix_link. destruct (mapped link) as [page_id|] eqn:Hm.
  - unfold mapped in *. cbn [set_href label]. by rewrite Hm.
  - by rewrite Hm.
Qed.

Lemma fixed_menu_idempotent (menu : list MenuCategory) :
  fixed_menu (fixed_menu menu) = fixed_menu menu.
Proof.
  assert (∀ cat ls, links_of (with_links cat ls) = ls) as Hlinks by done.
  assert (∀ cat ls1 ls2, with_links (with_links cat ls1) ls2 = with_links cat ls2)
    as Hwith by done.
  unfold fixed_menu. rewrite map_map. apply map_ext. intros cat.
  rewrite Hlinks, Hwith, map_map. f_equal. apply map_ext, fix_link_idempotent.
Qed.

Lemma count_mapped_fixed (menu : list MenuCategory) :
  count_mapped (fixed_menu menu) = count_mapped menu.
Proof.
  assert (∀ cat ls, links_of (with_links cat ls) = ls) as Hlinks by done.
  unfold count_mapped, fixed_menu. rewrite map_map. f_equal. apply map_ext.
  intros cat. rewrite Hlinks.
  induction (links_of cat) as [|link ls IH]; [done|]. cbn [map List.filter].
  rewrite is_mapped_fix_link. destruct (is_mapped link); cbn [length]; by rewrite IH.
Qed.

(** Running [fix_menu_urls] on its own output changes nothing: it returns
    the same tree and the same two counters. *)
Theorem fix_menu_urls_idempotent (menu_data fixed : list MenuCategory)
    (fixed_count missing_count : nat) :
  valid_menu menu_data = true →
  fix_menu_urls menu_data = Returned (fixed, fixed_count, missing_count) →
  fix_menu_urls fixed = Returned (fixed, fixed_count, missing_count).
Proof.
  intros Hok. unfold fix_menu_urls. rewrite fix_categories_spec by done.
  cbn [app]. intros [= <- <- <-].
  rewrite fix_categories_spec by (by apply fixed_menu_valid). cbn [app].
  by rewrite fixed_menu_idempotent, count_mapped_fixed, count_links_fixed.
Qed.

Lemma fix_menu_urls_idempotent_witness :
  valid_menu Examples.weather_clean_menu = true
  ∧ fix_menu_urls Examples.weather_clean_menu
    = Returned (fixed_menu Examples.weather_clean_menu, 2, 1)
  ∧ fix_menu_urls (fixed_menu Examples.weather_clean_menu)
    = Returned (fixed_menu Examples.weather_clean_menu, 2, 1).
Proof.
  assert (fix_menu_urls Examples.weather_clean_menu
          = Returned (fixed_menu Examples.weather_clean_menu, 2, 1)) as H
    by (vm_compute; reflexivity).
  split; [reflexivity|]. split; [exact H|].
  exact (fix_menu_urls_idempotent Examples.weather_clean_menu _ 2 1 eq_refl H).
Defined.

End FixUrls.

(** ** Missing keys *)

Section MissingKeys.
Import MenuGenerator MenuSpec MenuBuilder BuilderFacts TreeShapes.

(** [create_category] stops at the first item that lacks a key it
    subscripts and raises the [KeyError] of that key: ['label'] when the
    label is missing, ['page_id'] when only the page id is. *)
Theorem create_category_missing_key (env_file : option (list string))
    (creds : PageVisibilityDetector.Credentials) (experience_id : option string)
    (category_name color : string) (before after : list MenuItem) (item : MenuItem) :
  Config.get_arcgis_credentials env_file = Returned creds →
  forallb complete_item before = true →
  complete_item item = false →
  create_category env_file experience_id category_name color (before ++ item :: after)
    = Raised (KeyError (match item_label item with
                        | None => "label"
                        | Some _ => "page_id"
                        end)).
Proof.
  intros Hc Hbefore Hitem. unfold create_category.
  assert (∀ built,
    create_links env_file experience_id (before ++ item :: after) built
    = Raised (KeyError (match item_label item with
                        | None => "label"
                        | Some _ => "page_id"
                        end))) as ->; [|done].
  induction before as [|first before IH]; intros built.
  - cbn [app create_links]. unfold complete_item in Hitem.
    destruct (item_label item) as [l|]; [|done].
    by destruct (item_page_id item).
  - apply andb_prop in Hbefore as [Hfirst Hbefore].
    destruct first as [[l|] [p|] s]; try done.
    cbn [app create_links item_label item_page_id item_search_terms getitem
         mbind outcome_bind].
    unfold Config.create_menu_item.
    rewrite (build_experience_url_returns env_file creds p experience_id Hc).
    cbn [mbind outcome_bind mret outcome_ret]. by apply IH.
Qed.

Lemma create_category_missing_key_witness :
  Config.get_arcgis_credentials (Some ["ARCGIS_BASE_EXPERIENCE_ID=abc123"])
    = Returned
        {| PageVisibilityDetector.client_id := None;
           PageVisibilityDetector.client_secret := None;
           PageVisibilityDetector.portal_url := "https://experience.arcgis.com";
           PageVisibilityDetector.base_experience_id := Some "abc123" |}
  ∧ create_category (Some ["ARCGIS_BASE_EXPERIENCE_ID=abc123"]) None
      "2 Weather" "btn-blue"
      ([ {| item_label := Some "Precipitation"; item_page_id := Some "Precipitation";
            item_search_terms := None |} ]
       ++ {| item_label := Some "Fire Weather"; item_page_id := None;
             item_search_terms := None |} :: [])
    = Raised (KeyError "page_id").
Proof.
  assert (Config.get_arcgis_credentials (Some ["ARCGIS_BASE_EXPERIENCE_ID=abc123"])
          = Returned
              {| PageVisibilityDetector.client_id := None;
                 PageVisibilityDetector.client_secret := None;
                 PageVisibilityDetector.portal_url := "https://experience.arcgis.com";
                 PageVisibilityDetector.base_experience_id := Some "abc123" |}) as Hc
    by (vm_compute; reflexivity).
  split; [exact Hc|].
  exact (create_category_missing_key _ _ None "2 Weather" "btn-blue"
           [ {| item_label := Some "Precipitation";
                item_page_id := Some "Precipitation";
                item_search_terms := None |} ] []
           {| item_label := Some "Fire Weather"; item_page_id := None;
              item_search_terms := None |} Hc eq_refl eq_refl).
Defined.

Lemma scan_links_all_kept (visible : gset string) (cat : MenuCategory)
    (todo cleaned : list MenuLink) (removed : list RemovedItem) :
  forallb (fun link => match href link with Some _ => true | None => false end) todo
    = true →
  forallb (keep_link visible) todo = true →
  scan_links visible cat todo cleaned removed = Returned (cleaned ++ todo, removed).
Proof.
  revert cleaned. induction todo as [|link todo IH]; intros cleaned Hhref Hkeep.
  - simpl. by rewrite app_nil_r.
  - apply andb_prop in Hhref as [Hh Hhref]. apply andb_prop in Hkeep as [Hk Hkeep].
    destruct (href link) as [h|] eqn:Heq; [|done].
    rewrite (keep_link_href visible link h Heq) in Hk.
    cbn [scan_links]. rewrite Heq. cbn [getitem mbind outcome_bind].
    destruct (Py.contains "/page/" h); [rewrite Hk|];
      rewrite IH by done; by rewrite <-app_assoc.
Qed.

Lemma scan_categories_all_kept (visible : gset string)
    (todo cleaned : list MenuCategory) (removed : list RemovedItem) :
  hrefs_present todo = true → clean visible todo = true →
  scan_categories visible todo cleaned removed
    = Returned (cleaned ++ List.filter has_links todo, removed).
Proof.
  revert cleaned. induction todo as [|cat todo IH]; intros cleaned Hhref Hclean.
  - simpl. by rewrite app_nil_r.
  - apply andb_prop in Hhref as [Hh Hhref]. apply andb_prop in Hclean as [Hk Hclean].
    unfold links_of in Hk. cbn [scan_categories List.filter]. unfold has_links at 1.
    destruct (links cat) as [ls|] eqn:Hls; [|done]. cbn [get_default] in Hk.
    cbn [getitem mbind outcome_bind]. rewrite scan_links_all_kept by done.
    cbn [mbind outcome_bind app].
    destruct ls as [|l ls]; rewrite IH by done; [done|].
    rewrite <-app_assoc. cbn [app]. by rewrite with_links_same.
Qed.

(** The loops read [label] and [category] only for a link they remove: on
    a tree where every category has [links] and every link has [href],
    whatever else is missing, and where every link with a page key is
    visible, reconciliation returns the categories that have a link,
    unchanged, and an empty report. *)
Theorem reconcile_clean_reads_only_hrefs (visible : gset string)
    (menu : list MenuCategory) :
  hrefs_present menu = true → clean visible menu = true →
  reconcile visible menu = Returned (List.filter has_links menu, []).
Proof. intros Hhref Hclean. unfold reconcile. by rewrite scan_categories_all_kept. Qed.

Lemma reconcile_clean_reads_only_hrefs_witness :
  hrefs_present
    [ {| category := None; color := None;
         links := Some [ {| label := None; href := Some "https://www.redcross.org/";
                            term := None |} ] |} ] = true
  ∧ valid_menu
      [ {| category := None; color := None;
           links := Some [ {| label := None; href := Some "https://www.redcross.org/";
                              term := None |} ] |} ] = false
  ∧ reconcile ∅
      [ {| category := None; color := None;
           links := Some [ {| label := None; href := Some "https://www.redcross.org/";
                              term := None |} ] |} ]
    = Returned
        (List.filter has_links
           [ {| category := None; color := None;
                links := Some [ {| label := None;
                                   href := Some "https://www.redcross.org/";
                                   term := None |} ] |} ], []).
Proof.
  split; [reflexivity|]. split; [reflexivity|].
  apply (reconcile_clean_reads_only_hrefs ∅
           [ {| category := None; color := None;
                links := Some [ {| label := None;
                                   href := Some "https://www.redcross.org/";
                                   term := None |} ] |} ]); reflexivity.
Defined.

End MissingKeys.

(** ** The page key and the last marker *)

Section LastMarker.
Import MenuGenerator MenuSpec KeySpec.

#[local] Arguments String.prefix : simpl never.

Lemma after_last_cons (sep : string) (c : ascii) (s : string) :
  after_last sep (String c s) =
    match after_last sep s with
    | Some k => Some k
    | None =>
        if String.prefix sep (String c s)
        then Some (Py.drop (String.length sep) (String c s)) else None
    end.
Proof. done. Qed.

(** An occurrence further right hides everything in front of it. *)
Lemma after_last_app_Some (sep x y k : string) :
  after_last sep y = Some k → after_last sep (x +:+ y) = Some k.
Proof.
  intros Hy. induction x as [|c x IH]; [done|].
  by rewrite str_app_cons, after_last_cons, IH.
Qed.

Lemma after_last_None (sep s : string) :
  after_last sep s = None ↔ Py.find sep s = None.
Proof.
  induction s as [|c s IH].
  - simpl. by destruct (String.prefix sep "").
  - rewrite after_last_cons. simpl Py.find.
    destruct (after_last sep s) as [k|] eqn:Hk.
    + split; [done|]. destruct (String.prefix sep (String c s)); [done|].
      destruct (Py.find sep s) eqn:Hf; [done|]. intros _.
      assert (Some k = None) by (by apply IH). done.
    + destruct (String.prefix sep (String c s)); [done|].
      assert (Py.find sep s = None) as -> by (by apply IH). done.
Qed.

Lemma after_last_None_contains (sep s : string) :
  after_last sep s = None ↔ Py.contains sep s = false.
Proof.
  rewrite after_last_None. unfold Py.contains.
  by destruct (Py.find sep s).
Qed.

Lemma contains_app_r (x a b : string) :
  Py.contains x (a +:+ b) = false → Py.contains x b = false.
Proof.
  intros Hab. destruct (Py.contains x b) eqn:Hb; [|done].
  apply contains_iff in Hb as (pre & post & ->).
  assert (Py.contains x (a +:+ pre +:+ x +:+ post) = true); [|congruence].
  apply contains_iff. exists (a +:+ pre), post. by rewrite str_app_assoc.
Qed.

(** Behind a marker that is not followed by ["page/"], and with no marker
    further right, no marker starts inside the marker itself. *)
Lemma after_last_inside_marker (rest : string) :
  after_last "/page/" rest = None →
  String.prefix "page/" rest = false →
  after_last "/page/" ("/page/" +:+ rest) = Some rest.
Proof.
  intros Hrest Hnext.
  change ("/page/" +:+ rest)
    with (String "/" (String "p" (String "a" (String "g" (String "e"
            (String "/" rest)))))).
  assert (∀ c x, c ≠ "/"%char → String.prefix "/page/" (String c x) = false)
    as Hhead.
  { intros c x Hc. unfold String.prefix. by destruct (ascii_dec "/" c). }
  rewrite !after_last_cons, Hrest.
  change (String.prefix "/page/" (String "/" rest))
    with (String.prefix "page/" rest).
  rewrite Hnext, !Hhead by done.
  assert (String.prefix "/page/"
            (String "/" (String "p" (String "a" (String "g" (String "e"
               (String "/" rest)))))) = true) as ->.
  { apply str_prefix_iff. by exists rest. }
  done.
Qed.

(** Where the markers of a string do not overlap, that is where
    ["/page/page/"] does not occur, the last piece of [split] is the text
    behind the last marker. *)
Lemma after_last_split_fuel (fuel : nat) (s : string) :
  String.length s ≤ fuel →
  Py.contains "/page/page/" s = false →
  after_last "/page/" s =
    if Py.contains "/page/" s
    then Some (Py.last_piece (Py.split_fuel fuel "/page/" s)) else None.
Proof.
  revert s. induction fuel as [|fuel IH]; intros s Hlen Hno.
  - destruct s; [done|simpl in Hlen; lia].
  - destruct (Py.contains "/page/" s) eqn:Hc;
      [|by apply after_last_None_contains].
    unfold Py.contains in Hc. cbn [Py.split_fuel].
    destruct (Py.find "/page/" s) as [i|] eqn:Hf; [|done].
    rewrite last_piece_cons by apply split_fuel_nonempty.
    pose proof (find_Some_bound _ _ _ Hf) as Hbound.
    pose proof (find_Some _ _ _ Hf) as Hs.
    set (rest := Py.drop (i + String.length "/page/") s) in *.
    assert (Py.contains "/page/page/" rest = false) as Hno_rest.
    { rewrite Hs in Hno. by do 2 apply contains_app_r in Hno. }
    assert (String.length rest ≤ fuel) as Hlen_rest.
    { unfold rest. rewrite str_length_drop. simpl in *. lia. }
    rewrite Hs at 1. specialize (IH rest Hlen_rest Hno_rest).
    destruct (Py.contains "/page/" rest) eqn:Hc_rest.
    + apply after_last_app_Some, after_last_app_Some. exact IH.
    + rewrite (split_fuel_no_sep fuel "/page/" rest Hc_rest).
      apply after_last_app_Some, after_last_inside_marker; [exact IH|].
      destruct (String.prefix "page/" rest) eqn:Hp; [|done].
      apply str_prefix_iff in Hp as [r Hr].
      assert (Py.contains "/page/page/" s = true); [|congruence].
      apply contains_iff. exists (Py.take i s), r.
      rewrite Hs at 1. by rewrite Hr.
Qed.

Lemma page_id_of_after_last (h : string) :
  Py.contains "/page/" h = true →
  Py.contains "/page/page/" h = false →
  after_last "/page/" h = Some (page_id_of h).
Proof.
  intros Hc Hno. unfold page_id_of, Py.split.
  by rewrite (after_last_split_fuel (String.length h) h), Hc.
Qed.

End LastMarker.

(** ** Reconciliation, link by link *)

Section ReconcileKeys.
Import MenuGenerator MenuSpec KeySpec.

(** C1 (amended). For every well-formed menu tree and every visible page
    set, reconciliation returns one category for each input category that
    keeps a link, in the input order, with the name and colour of the input
    category and, as its links, exactly the input links that pass the keep
    rule, in their original order.  A link whose href contains ['/page/']
    passes iff its page key is in the visible set.  The page key is the
    last piece of [href.split('/page/')]: a text that follows a ['/page/']
    of the href and holds no ['/page/'] itself; it is the text behind the
    last ['/page/'] of the href whenever ['/page/page/'] does not occur in
    the href.  A link whose href does not contain ['/page/'] always
    passes. *)
Theorem reconcile_keeps_exactly (visible : gset string) (menu : list MenuCategory) :
  valid_menu menu = true →
  ∃ cleaned_menu removed_items,
    reconcile visible menu = Returned (cleaned_menu, removed_items)
    ∧ reconciliation_of visible menu cleaned_menu
    ∧ (∀ link, has_page_key link = true →
         (keep_link visible link = true ↔ page_key link ∈ visible)
         ∧ page_key link = Py.last_piece (Py.split "/page/" (href_of link))
         ∧ (∃ pre, href_of link = pre +:+ "/page/" +:+ page_key link)
         ∧ Py.contains "/page/" (page_key link) = false
         ∧ (Py.contains "/page/page/" (href_of link) = false →
            after_last "/page/" (href_of link) = Some (page_key link)))
    ∧ (∀ link, has_page_key link = false → keep_link visible link = true).
Proof.
  intros Hok. exists (reconciled visible menu), (removed_report visible menu).
  split; [by apply reconcile_returns|].
  split; [apply reconciled_is_reconciliation|]. split.
  - intros link Hkey. split; [|split; [done|]].
    + rewrite keep_link_spec. naive_solver.
    + destruct (page_id_of_after_marker (href_of link) Hkey) as [Hpre Hclean].
      split; [exact Hpre|]. split; [exact Hclean|].
      intros Hno. by apply page_id_of_after_last.
  - intros link Hkey. unfold keep_link. by rewrite Hkey.
Qed.

Lemma reconcile_keeps_exactly_witness :
  valid_menu Examples.weather_menu = true ∧
  ∃ cleaned_menu removed_items,
    reconcile Examples.weather_visible Examples.weather_menu
      = Returned (cleaned_menu, removed_items)
    ∧ reconciliation_of Examples.weather_visible Examples.weather_menu cleaned_menu
    ∧ (∀ link, has_page_key link = true →
         (keep_link Examples.weather_visible link = true ↔
            page_key link ∈ Examples.weather_visible)
         ∧ page_key link = Py.last_piece (Py.split "/page/" (href_of link))
         ∧ (∃ pre, href_of link = pre +:+ "/page/" +:+ page_key link)
         ∧ Py.contains "/page/" (page_key link) = false
         ∧ (Py.contains "/page/page/" (href_of link) = false →
            after_last "/page/" (href_of link) = Some (page_key link)))
    ∧ (∀ link, has_page_key link = false →
         keep_link Examples.weather_visible link = true).
Proof.
  split; [reflexivity|].
  apply (reconcile_keeps_exactly Examples.weather_visible Examples.weather_menu).
  reflexivity.
Defined.

(** C1 as stated fails: the href below ends in ['/page/page/page_84'], so
    the text behind its last ['/page/'] is [page_84], a visible page; the
    split cuts at the first of the two overlapping markers and yields the
    key [page/page_84], which is not visible, and the link is removed. *)
Lemma page_key_is_not_after_last_marker :
  valid_menu overlap_menu = true
  ∧ has_page_key overlap_link = true
  ∧ after_last "/page/" (href_of overlap_link) = Some "page_84"
  ∧ "page_84" ∈ ({[ "page_84" ]} : gset string)
  ∧ page_key overlap_link = "page/page_84"
  ∧ keep_link {[ "page_84" ]} overlap_link = false
  ∧ reconcile {[ "page_84" ]} overlap_menu
    = Returned ([], [ {| removed_category := "2 Weather";
                         removed_label := "Precipitation";
                         removed_page_id := "page/page_84" |} ]).
Proof.
  split; [reflexivity|]. split; [reflexivity|]. split; [vm_compute; reflexivity|].
  split; [set_solver|]. split; [vm_compute; reflexivity|].
  split; vm_compute; reflexivity.
Qed.

End ReconcileKeys.
